(** * Attestation pre-state resolution and validation (package [blockchain])

    A shallow embedding of the five methods of [*Service] that live in the
    attestation helper file of the beacon chain's [blockchain] package:
    [getAttPreState], [verifyAttTargetEpoch], [verifyBeaconBlock],
    [verifyLMDFFGConsistent] and [verifyAttestation].

    Go values are modelled as follows.
    - [uint64] is [Z] with the wrap-around of [-] and [*] written out.
    - [[]byte] and [[32]byte] are [list byte]; [bytes.Equal] and [==] on
      arrays are decidable list equality.
    - [*stateTrie.BeaconState] is an optional address ([None] is [nil]) into
      a heap of state values, so that [Copy] (fresh object) and
      [state.ProcessSlots] (in-place advance) can be told apart.
    - a Go [error] is [option Error]; a Go [(v, error)] pair is an [outcome].
    - every call that leaves the file (cache, state generator, database,
      head, core helpers) is a field of the [Host] interface, and each call
      is recorded, with its result, in the list of events of the run. *)

From Stdlib Require Import ZArith Lia List String.
From Stdlib.Strings Require Import Byte.
From stdpp Require Import base tactics option list.

Local Open Scope Z_scope.

(* ===================================================================== *)
(** ** Machine integers *)

Module U64.

Definition modulus : Z := 2 ^ 64.

Definition in_range (x : Z) : Prop := 0 <= x < modulus.

(** Go's [a - b] on [uint64]: wraps modulo [2^64]. *)
Definition sub (a b : Z) : Z := (a - b) mod modulus.

(** Go's [a * b] on [uint64]: wraps modulo [2^64]. *)
Definition mul (a b : Z) : Z := (a * b) mod modulus.

(** Go's [a / b] on [uint64], for a non-zero divisor (a zero divisor is a
    run-time panic in Go; callers rule it out by [config_ok]). *)
Definition div (a b : Z) : Z := a / b.

End U64.

(* ===================================================================== *)
(** ** Byte strings *)

Definition bytes : Type := list byte.

#[global] Instance byte_eq_decision : EqDecision byte := Byte.byte_eq_dec.

(** [bytes.Equal(a, b)]: same length and same contents (a [nil] slice and an
    empty one are equal, as both are the empty list here). *)
Definition bytes_Equal (a b : bytes) : bool := bool_decide (a = b).

(* ===================================================================== *)
(** ** Errors and results *)

(** An argument of a format string. *)
Inductive FmtArg : Type :=
| ArgUint (n : Z)
| ArgBytes (b : bytes).

(** Go [error] values that reach this file.  [ErrSigFailedToVerify] is the
    sentinel [helpers.ErrSigFailedToVerify] that [verifyAttestation] compares
    against with [==]; [ErrOther] stands for any other error value produced
    outside this file.  [Errorf] is [fmt.Errorf] / [errors.New] with the
    format string of the source and its arguments (not rendered: the
    cosmetic [bytesutil.Trunc] and [hex.EncodeToString] are left out);
    [Wrap] is [errors.Wrap] / [errors.Wrapf]. *)
Inductive Error : Type :=
| ErrSigFailedToVerify
| ErrOther (code : nat)
| Errorf (format : string) (args : list FmtArg)
| Wrap (cause : Error) (message : string) (args : list FmtArg).

(** The comparison [err == helpers.ErrSigFailedToVerify]: identity with the
    sentinel, so a wrapped signature failure does not match. *)
Definition isErrSigFailedToVerify (e : Error) : bool :=
  match e with
  | ErrSigFailedToVerify => true
  | _ => false
  end.

(** Ways a run ends without returning: a method call through a [nil] (or
    unallocated) state pointer, whose receiver methods are not part of these
    sources, and an attempt to take the cache guard while it is held. *)
Inductive Fault : Type :=
| NilDereference
| Blocked.

(** The result of a Go call returning [(v, error)]. *)
Inductive outcome (A : Type) : Type :=
| Ok (a : A)
| Err (e : Error)
| Abort (f : Fault).

Arguments Ok {A} a.
Arguments Err {A} e.
Arguments Abort {A} f.

(* ===================================================================== *)
(** ** Protocol data (package [ethpb]) *)

Module Checkpoint.
Record t : Type := mk { Epoch : Z; Root : bytes }.
End Checkpoint.

Module AttestationData.
Record t : Type := mk {
    Slot : Z;
    CommitteeIndex : Z;
    BeaconBlockRoot : bytes;
    Source : Checkpoint.t;
    Target : Checkpoint.t
  }.
End AttestationData.

Module Attestation.
Record t : Type := mk {
    AggregationBits : bytes;
    Data : AttestationData.t;
    Signature : bytes
  }.
End Attestation.

Module IndexedAttestation.
Record t : Type := mk {
    AttestingIndices : list Z;
    Data : AttestationData.t;
    Signature : bytes
  }.
End IndexedAttestation.

Module BeaconBlock.
Record t : Type := mk { Slot : Z; ParentRoot : bytes }.
End BeaconBlock.

Module SignedBeaconBlock.
(** [Block] is a pointer in Go and may be [nil]. *)
Record t : Type := mk { Block : option BeaconBlock.t; Signature : bytes }.
End SignedBeaconBlock.

(* ===================================================================== *)
(** ** Configuration *)

(** The fields of [params.BeaconConfig()] this file reads.  The params
    package is not part of these sources, so the configuration is a
    parameter of every definition that reads it. *)
Record BeaconChainConfig : Type := {
  SecondsPerSlot : Z;
  SlotsPerEpoch : Z;
  DomainBeaconAttester : bytes
}.

(** A configuration Go can run with: both divisors are non-zero [uint64]s. *)
Definition config_ok (cfg : BeaconChainConfig) : Prop :=
  0 < SecondsPerSlot cfg < U64.modulus /\ 0 < SlotsPerEpoch cfg < U64.modulus.

(** The flags of [featureconfig.Get()] this file reads. *)
Record Flags : Type := { NewStateMgmt : bool; CheckHeadState : bool }.

(** Modelled from the spec: [helpers.SlotToEpoch] is not part of these
    sources; the spec gives [slot / SLOTS_PER_EPOCH = epoch]. *)
Definition SlotToEpoch (cfg : BeaconChainConfig) (slot : Z) : Z :=
  U64.div slot (SlotsPerEpoch cfg).

(** Modelled from the spec: [helpers.StartSlot] is not part of these sources;
    the spec gives [epoch_start(e) = e * SLOTS_PER_EPOCH], here on [uint64]. *)
Definition StartSlot (cfg : BeaconChainConfig) (epoch : Z) : Z :=
  U64.mul epoch (SlotsPerEpoch cfg).

(* ===================================================================== *)
(** ** [verifyAttTargetEpoch] *)

(** [verifyAttTargetEpoch] validates attestation is from the current or
    previous epoch.  It reads nothing of the service. *)
Definition verifyAttTargetEpoch (cfg : BeaconChainConfig)
    (genesisTime nowTime : Z) (c : Checkpoint.t) : option Error :=
  let currentSlot := U64.div (U64.sub nowTime genesisTime) (SecondsPerSlot cfg) in
  let currentEpoch := SlotToEpoch cfg currentSlot in
  (* var prevEpoch uint64; if currentEpoch > 1 { prevEpoch = currentEpoch - 1 } *)
  let prevEpoch := if currentEpoch >? 1 then U64.sub currentEpoch 1 else 0 in
  if negb (Checkpoint.Epoch c =? prevEpoch) && negb (Checkpoint.Epoch c =? currentEpoch)
  then Some (Errorf "target epoch %d does not match current epoch %d or prev epoch %d"
               [ArgUint (Checkpoint.Epoch c); ArgUint currentEpoch; ArgUint prevEpoch])
  else None.

(* ===================================================================== *)
(** ** State pointers, collaborators and events *)

(** A [*stateTrie.BeaconState]: [None] is [nil], [Some a] the object at
    address [a] of the heap. *)
Definition ptr : Type := option nat.

(** What this file calls outside itself.  None of it is part of these
    sources, so each callee is a field: the methods of the checkpoint-state
    cache, of the state generator and of the database, the service's own
    head and ancestor accessors, and the pure helpers of the core packages
    (which read a state's value).  [Store] is everything behind
    [s.beaconDB], [s.stateGen], the head and the fork-choice store; [Cache]
    is [s.checkpointState].  A callee that returns a state returns the
    address of an object of the heap: the heap holds every state the host
    can hand out, and only [Copy] and [ProcessSlots] below add to it or
    change it. *)
Class Host (BeaconState Store Cache : Type) : Type := {
  (** [b.Slot()] *)
  state_Slot : BeaconState -> Z;
  (** [state.ProcessSlots], on the value of the state it is handed: the value
      it leaves behind and the error it returns. *)
  core_ProcessSlots : BeaconState -> Z -> BeaconState * option Error;
  (** [s.checkpointState.StateByCheckpoint] *)
  cache_StateByCheckpoint : Cache -> Checkpoint.t -> outcome ptr;
  (** [s.checkpointState.AddCheckpointState] *)
  cache_AddCheckpointState : Cache -> Checkpoint.t -> ptr -> Cache * option Error;
  (** [s.stateGen.HasState] *)
  stateGen_HasState : Store -> bytes -> bool;
  (** [s.stateGen.StateByRoot] *)
  stateGen_StateByRoot : Store -> bytes -> Store * outcome ptr;
  (** [s.beaconDB.SaveBlocks] *)
  beaconDB_SaveBlocks : Store -> list SignedBeaconBlock.t -> Store * option Error;
  (** [s.beaconDB.State] *)
  beaconDB_State : Store -> bytes -> outcome ptr;
  (** [s.beaconDB.Block] *)
  beaconDB_Block : Store -> bytes -> outcome (option SignedBeaconBlock.t);
  (** [s.HeadRoot] *)
  service_HeadRoot : Store -> outcome bytes;
  (** [s.HeadState] *)
  service_HeadState : Store -> outcome ptr;
  (** [s.ancestor] *)
  service_ancestor : Store -> bytes -> Z -> outcome bytes;
  (** [bytesutil.ToBytes32] *)
  ToBytes32 : bytes -> bytes;
  (** [helpers.BeaconCommitteeFromState] *)
  BeaconCommitteeFromState : BeaconState -> Z -> Z -> outcome (list Z);
  (** [attestationutil.ConvertToIndexed] *)
  ConvertToIndexed : Attestation.t -> list Z -> IndexedAttestation.t;
  (** [blocks.VerifyIndexedAttestation] *)
  VerifyIndexedAttestation : BeaconState -> IndexedAttestation.t -> option Error;
  (** [helpers.Seed] *)
  Seed : BeaconState -> Z -> bytes -> outcome bytes
}.

(** One entry per call that touches the guard, the cache, the store, the
    initial-sync buffer or the heap, with the arguments and the result. *)
Inductive Event : Type :=
| EvLock
| EvUnlock
| EvStateByCheckpoint (c : Checkpoint.t) (res : outcome ptr)
| EvAddCheckpointState (c : Checkpoint.t) (st : ptr) (res : option Error)
| EvHasState (root : bytes) (res : bool)
| EvSaveBlocks (blks : list SignedBeaconBlock.t) (res : option Error)
| EvClearInitSyncBlocks
| EvStateByRoot (root : bytes) (res : outcome ptr)
| EvState (root : bytes) (res : outcome ptr)
| EvBlock (root : bytes) (res : outcome (option SignedBeaconBlock.t))
| EvHeadRoot (res : outcome bytes)
| EvHeadState (res : outcome ptr)
| EvAncestor (root : bytes) (slot : Z) (res : outcome bytes)
| EvCopy (src dst : nat)
| EvProcessSlots (st : nat) (slot : Z) (res : option Error).

Section Blockchain.

Context {BeaconState Store Cache : Type} `{!Host BeaconState Store Cache}.

(** The configuration and the feature flags in force. *)
Variable cfg : BeaconChainConfig.
Variable fc : Flags.

(** The fields of [Service] these methods use, and the heap of state
    objects their pointers refer to. *)
Record Service : Type := mkService {
  checkpointStateLock : bool;
  checkpointState : Cache;
  store : Store;
  initSyncBlocks : list SignedBeaconBlock.t;
  heap : list BeaconState
}.

Definition set_checkpointStateLock (b : bool) (s : Service) : Service :=
  mkService b (checkpointState s) (store s) (initSyncBlocks s) (heap s).

Definition set_checkpointState (c : Cache) (s : Service) : Service :=
  mkService (checkpointStateLock s) c (store s) (initSyncBlocks s) (heap s).

Definition set_store (d : Store) (s : Service) : Service :=
  mkService (checkpointStateLock s) (checkpointState s) d (initSyncBlocks s) (heap s).

Definition set_initSyncBlocks (l : list SignedBeaconBlock.t) (s : Service) : Service :=
  mkService (checkpointStateLock s) (checkpointState s) (store s) l (heap s).

Definition set_heap (h : list BeaconState) (s : Service) : Service :=
  mkService (checkpointStateLock s) (checkpointState s) (store s) (initSyncBlocks s) h.

(** *** The monad of a method body

    A method runs from a service to a service, the events of its calls in
    order, and its result. *)
Definition M (A : Type) : Type := Service -> Service * list Event * outcome A.

Definition ret {A : Type} (a : A) : M A := fun s => (s, [], Ok a).

(** A result computed outside the service: no step, no event. *)
Definition lift {A : Type} (r : outcome A) : M A := fun s => (s, [], r).

(** [return nil, err] *)
Definition fail {A : Type} (e : Error) : M A := fun s => (s, [], Err e).

Definition abort {A : Type} (f : Fault) : M A := fun s => (s, [], Abort f).

Definition bind {A B : Type} (m : M A) (k : A -> M B) : M B := fun s =>
  match m s with
  | (s1, e1, Ok a) => match k a s1 with (s2, e2, r) => (s2, e1 ++ e2, r) end
  | (s1, e1, Err e) => (s1, e1, Err e)
  | (s1, e1, Abort f) => (s1, e1, Abort f)
  end.

(** [defer cleanup] before [body]: the clean-up runs when the body is left,
    however it is left, and the body's result stands. *)
Definition defer {A : Type} (cleanup : M unit) (body : M A) : M A := fun s =>
  match body s with
  | (s1, e1, r) => match cleanup s1 with (s2, e2, _) => (s2, e1 ++ e2, r) end
  end.

(** [if err != nil { return nil, errors.Wrap(err, message) }] after a call. *)
Definition orWrap {A : Type} (m : M A) (message : string) (args : list FmtArg) : M A := fun s =>
  match m s with
  | (s1, e1, Err e) => (s1, e1, Err (Wrap e message args))
  | r => r
  end.

(** [if err != nil { return nil, err }] for a callee that returns only an
    error. *)
Definition ofError (e : option Error) : outcome unit :=
  match e with
  | None => Ok tt
  | Some err => Err err
  end.

Notation "x <- m ;; k" := (bind m (fun x => k))
  (at level 100, m at next level, right associativity, only parsing).
Notation "m ;;; k" := (bind m (fun _ => k))
  (at level 100, right associativity, only parsing).

(** *** The calls of the file, as steps of the monad *)

(** [s.checkpointStateLock.Lock()]: a guard that is held keeps the caller
    waiting. *)
Definition Lock : M unit := fun s =>
  if checkpointStateLock s then (s, [], Abort Blocked)
  else (set_checkpointStateLock true s, [EvLock], Ok tt).

(** [s.checkpointStateLock.Unlock()] *)
Definition Unlock : M unit := fun s =>
  (set_checkpointStateLock false s, [EvUnlock], Ok tt).

Definition StateByCheckpoint (c : Checkpoint.t) : M ptr := fun s =>
  let res := cache_StateByCheckpoint (checkpointState s) c in
  (s, [EvStateByCheckpoint c res], res).

(** [s.checkpointState.AddCheckpointState(&cache.CheckpointState{Checkpoint: c, State: st})] *)
Definition AddCheckpointState (c : Checkpoint.t) (st : ptr) : M unit := fun s =>
  let '(cache', res) := cache_AddCheckpointState (checkpointState s) c st in
  (set_checkpointState cache' s, [EvAddCheckpointState c st res], ofError res).

Definition HasState (root : bytes) : M bool := fun s =>
  let res := stateGen_HasState (store s) root in
  (s, [EvHasState root res], Ok res).

Definition StateByRoot (root : bytes) : M ptr := fun s =>
  let '(store', res) := stateGen_StateByRoot (store s) root in
  (set_store store' s, [EvStateByRoot root res], res).

Definition SaveBlocks (blks : list SignedBeaconBlock.t) : M unit := fun s =>
  let '(store', res) := beaconDB_SaveBlocks (store s) blks in
  (set_store store' s, [EvSaveBlocks blks res], ofError res).

Definition State (root : bytes) : M ptr := fun s =>
  let res := beaconDB_State (store s) root in
  (s, [EvState root res], res).

Definition Block (root : bytes) : M (option SignedBeaconBlock.t) := fun s =>
  let res := beaconDB_Block (store s) root in
  (s, [EvBlock root res], res).

Definition HeadRoot : M bytes := fun s =>
  let res := service_HeadRoot (store s) in
  (s, [EvHeadRoot res], res).

Definition HeadState : M ptr := fun s =>
  let res := service_HeadState (store s) in
  (s, [EvHeadState res], res).

Definition ancestor (root : bytes) (slot : Z) : M bytes := fun s =>
  let res := service_ancestor (store s) root slot in
  (s, [EvAncestor root slot res], res).

(** Modelled from the spec: [s.getInitSyncBlocks] is not part of these
    sources; the spec has a transient buffer of blocks that the orchestrator
    flushes into the store.  This reads the buffer. *)
Definition getInitSyncBlocks : M (list SignedBeaconBlock.t) := fun s =>
  (s, [], Ok (initSyncBlocks s)).

(** Modelled from the spec: [s.clearInitSyncBlocks] is not part of these
    sources; after the flush the buffer is empty. *)
Definition clearInitSyncBlocks : M unit := fun s =>
  (set_initSyncBlocks [] s, [EvClearInitSyncBlocks], Ok tt).

(** The value behind a state pointer; a [nil] or unallocated pointer has
    none. *)
Definition load (st : ptr) : M BeaconState := fun s =>
  match st with
  | Some a =>
      match heap s !! a with
      | Some v => (s, [], Ok v)
      | None => (s, [], Abort NilDereference)
      end
  | None => (s, [], Abort NilDereference)
  end.

(** [st.Slot()] *)
Definition Slot (st : ptr) : M Z :=
  v <- load st ;; ret (state_Slot v).

(** [st.Copy()]: a new object with the same value. *)
Definition Copy (st : ptr) : M ptr := fun s =>
  match st with
  | Some a =>
      match heap s !! a with
      | Some v =>
          let b := length (heap s) in
          (set_heap (heap s ++ [v]) s, [EvCopy a b], Ok (Some b))
      | None => (s, [], Abort NilDereference)
      end
  | None => (s, [], Abort NilDereference)
  end.

(** [state.ProcessSlots(ctx, st, slot)]: advances the object it is handed,
    in place, and returns it (or [nil] and the error). *)
Definition ProcessSlots (st : ptr) (slot : Z) : M ptr := fun s =>
  match st with
  | Some a =>
      match heap s !! a with
      | Some v =>
          let '(v', res) := core_ProcessSlots v slot in
          (set_heap (<[a := v']> (heap s)) s, [EvProcessSlots a slot res],
           match res with
           | None => Ok (Some a)
           | Some err => Err err
           end)
      | None => (s, [], Abort NilDereference)
      end
  | None => (s, [], Abort NilDereference)
  end.

(* ===================================================================== *)
(** ** [getAttPreState] *)

(** [getAttPreState] retrieves the att pre state by either from the cache or
    the DB. *)
Definition getAttPreState (c : Checkpoint.t) : M ptr :=
  let startSlot := StartSlot cfg (Checkpoint.Epoch c) in
  Lock ;;;
  defer Unlock (
    cachedState <- orWrap (StateByCheckpoint c) "could not get cached checkpoint state" [] ;;
    match cachedState with
    | Some _ => ret cachedState
    | None =>
      if NewStateMgmt fc then
        hasState <- HasState (ToBytes32 (Checkpoint.Root c)) ;;
        (if negb hasState then
           blks <- getInitSyncBlocks ;;
           orWrap (SaveBlocks blks) "could not save initial sync blocks" [] ;;;
           clearInitSyncBlocks
         else ret tt) ;;;
        baseState <- orWrap (StateByRoot (ToBytes32 (Checkpoint.Root c)))
                       "could not get pre state for slot %d" [ArgUint startSlot] ;;
        slot <- Slot baseState ;;
        baseState <-
          (if startSlot >? slot then
             baseState <- Copy baseState ;;
             orWrap (ProcessSlots baseState startSlot)
               "could not process slots up to %d" [ArgUint startSlot]
           else ret baseState) ;;
        orWrap (AddCheckpointState c baseState)
          "could not saved checkpoint state to cache" [] ;;;
        ret baseState
      else
        (* the code after the CheckHeadState block, reached when that block
           does not return *)
        let fromDB : M ptr :=
          baseState <- orWrap (State (ToBytes32 (Checkpoint.Root c)))
                         "could not get pre state for slot %d" [ArgUint startSlot] ;;
          match baseState with
          | None => fail (Errorf "pre state of target block %d does not exist" [ArgUint startSlot])
          | Some _ =>
            slot <- Slot baseState ;;
            if startSlot >? slot then
              savedState <- Copy baseState ;;
              savedState <- orWrap (ProcessSlots savedState startSlot)
                              "could not process slots up to %d" [ArgUint startSlot] ;;
              cached <- Copy savedState ;;
              orWrap (AddCheckpointState c cached)
                "could not saved checkpoint state to cache" [] ;;;
              ret savedState
            else
              cached <- Copy baseState ;;
              orWrap (AddCheckpointState c cached)
                "could not saved checkpoint state to cache" [] ;;;
              ret baseState
          end in
        if CheckHeadState fc then
          headRoot <- orWrap HeadRoot "could not get head root" [] ;;
          if bytes_Equal headRoot (Checkpoint.Root c) then
            st <- orWrap HeadState "could not get head state" [] ;;
            cached <- Copy st ;;
            orWrap (AddCheckpointState c cached)
              "could not saved checkpoint state to cache" [] ;;;
            ret st
          else fromDB
        else fromDB
    end).

(* ===================================================================== *)
(** ** [verifyBeaconBlock] *)

(** [verifyBeaconBlock] verifies beacon head block is known and not from the
    future. *)
Definition verifyBeaconBlock (data : AttestationData.t) : M unit :=
  b <- Block (ToBytes32 (AttestationData.BeaconBlockRoot data)) ;;
  match b ≫= SignedBeaconBlock.Block with
  | None =>
      fail (Errorf "beacon block %#x does not exist"
              [ArgBytes (AttestationData.BeaconBlockRoot data)])
  | Some blk =>
      if BeaconBlock.Slot blk >? AttestationData.Slot data then
        fail (Errorf "could not process attestation for future block, block.Slot=%d > attestation.Data.Slot=%d"
                [ArgUint (BeaconBlock.Slot blk); ArgUint (AttestationData.Slot data)])
      else ret tt
  end.

(* ===================================================================== *)
(** ** [verifyLMDFFGConsistent] *)

(** [verifyLMDFFGConsistent] verifies LMD GHOST and FFG votes are consistent
    with each other. *)
Definition verifyLMDFFGConsistent (ffgEpoch : Z) (ffgRoot lmdRoot : bytes) : M unit :=
  let ffgSlot := StartSlot cfg ffgEpoch in
  r <- ancestor lmdRoot ffgSlot ;;
  if negb (bytes_Equal ffgRoot r) then
    fail (Errorf "FFG and LMD votes are not consistent" [])
  else ret tt.

(* ===================================================================== *)
(** ** [verifyAttestation] *)

(** [verifyAttestation] validates input attestation is valid. *)
Definition verifyAttestation (baseState : ptr) (a : Attestation.t) : M IndexedAttestation.t :=
  let data := Attestation.Data a in
  base <- load baseState ;;
  committee <- lift (BeaconCommitteeFromState base (AttestationData.Slot data)
                       (AttestationData.CommitteeIndex data)) ;;
  let indexedAtt := ConvertToIndexed a committee in
  match VerifyIndexedAttestation base indexedAtt with
  | Some err =>
      (if isErrSigFailedToVerify err then
         (* When sig fails to verify, check if there's a differences in
            committees due to different seeds. *)
         aState <-
           (if NewStateMgmt fc then
              hasState <- HasState (ToBytes32 (AttestationData.BeaconBlockRoot data)) ;;
              (if negb hasState then
                 blks <- getInitSyncBlocks ;;
                 orWrap (SaveBlocks blks) "could not save initial sync blocks" [] ;;;
                 clearInitSyncBlocks
               else ret tt) ;;;
              StateByRoot (ToBytes32 (AttestationData.BeaconBlockRoot data))
            else
              State (ToBytes32 (AttestationData.BeaconBlockRoot data))) ;;
         match aState with
         | None =>
             fail (Errorf "nil state for block root %#x"
                     [ArgBytes (AttestationData.BeaconBlockRoot data)])
         | Some _ =>
             let epoch := SlotToEpoch cfg (AttestationData.Slot data) in
             origSeed <- orWrap (lift (Seed base epoch (DomainBeaconAttester cfg)))
                           "could not get original seed" [] ;;
             attState <- load aState ;;
             aSeed <- orWrap (lift (Seed attState epoch (DomainBeaconAttester cfg)))
                        "could not get attester's seed" [] ;;
             if negb (bytes_Equal origSeed aSeed) then
               fail (Errorf "could not verify indexed attestation due to differences in seeds: %v != %v"
                       [ArgBytes origSeed; ArgBytes aSeed])
             else ret tt
         end
       else ret tt) ;;;
      fail (Wrap err "could not verify indexed attestation" [])
  | None => ret indexedAtt
  end.

End Blockchain.

(* ===================================================================== *)
(** ** Reading the events of a run *)

(** The run asked the state generator ([StateByRoot]) or the database
    ([State]) for the state at [root], and got [res]. *)
Definition stateLoaded (evs : list Event) (root : bytes) (res : outcome ptr) : Prop :=
  EvStateByRoot root res ∈ evs \/ EvState root res ∈ evs.

(** The base state of [getAttPreState]: the state generator or the database
    returned the object at address [a] for [root]. *)
Definition baseFetched (evs : list Event) (root : bytes) (a : nat) : Prop :=
  stateLoaded evs root (Ok (Some a)).

(** Each event of a run paired with whether the cache guard is held when it
    happens, for a run that starts with the guard [held]. *)
Fixpoint guardTrace (held : bool) (evs : list Event) : list (Event * bool) :=
  match evs with
  | [] => []
  | EvLock :: l => (EvLock, held) :: guardTrace true l
  | EvUnlock :: l => (EvUnlock, held) :: guardTrace false l
  | e :: l => (e, held) :: guardTrace held l
  end.

(** The events of state generation: initial-sync flush, state-generator and
    state-store reads, head reads, copies and slot processing; that is,
    everything but the guard itself and the cache's lookup and insertion. *)
Definition isGeneration (e : Event) : bool :=
  match e with
  | EvHasState _ _ | EvSaveBlocks _ _ | EvClearInitSyncBlocks
  | EvStateByRoot _ _ | EvState _ _ | EvHeadRoot _ | EvHeadState _
  | EvCopy _ _ | EvProcessSlots _ _ _ => true
  | _ => false
  end.

(* ===================================================================== *)
(** ** A small host

    A concrete instance of [Host], used to run the methods on explicit
    inputs: states carry a slot and one RANDAO mix, the store is a handful
    of association lists, and the cache is an association list without
    eviction. *)

Module Toy.

Record state : Type := mkState { slot : Z; mix : bytes }.

Record tstore : Type := mkStore {
  genStates : list (bytes * nat);
  dbStates : list (bytes * nat);
  dbBlocks : list (bytes * SignedBeaconBlock.t);
  headRoot : bytes;
  headState : ptr;
  ancestors : list (bytes * bytes)
}.

Definition tcache : Type := list (Checkpoint.t * ptr).

#[global] Instance checkpoint_eq_decision : EqDecision Checkpoint.t.
Proof. solve_decision. Defined.

Fixpoint assoc {K V : Type} `{EqDecision K} (k : K) (l : list (K * V)) : option V :=
  match l with
  | [] => None
  | (k', v) :: l' => if decide (k = k') then Some v else assoc k l'
  end.

Definition processSlots (v : state) (target : Z) : state * option Error :=
  if slot v <=? target then (mkState target (mix v), None)
  else (v, Some (ErrOther 0)).

Definition stateByRoot (d : tstore) (root : bytes) : tstore * outcome ptr :=
  match assoc root (genStates d) with
  | Some a => (d, Ok (Some a))
  | None => (d, Err (ErrOther 1))
  end.

Definition saveBlocks (d : tstore) (blks : list SignedBeaconBlock.t) : tstore * option Error :=
  (mkStore (genStates d) (dbStates d)
     (dbBlocks d ++ map (fun b => (SignedBeaconBlock.Signature b, b)) blks)
     (headRoot d) (headState d) (ancestors d), None).

Definition getAncestor (d : tstore) (root : bytes) (at_slot : Z) : outcome bytes :=
  match assoc root (ancestors d) with
  | Some r => Ok r
  | None => Err (ErrOther 2)
  end.

(** The signature [[x01]] verifies, the empty one is malformed, any other
    one fails to verify. *)
Definition verifyIndexed (v : state) (ia : IndexedAttestation.t) : option Error :=
  match IndexedAttestation.Signature ia with
  | [] => Some (ErrOther 3)
  | [x01] => None
  | _ => Some ErrSigFailedToVerify
  end.

#[global] Instance host : Host state tstore tcache := {|
  state_Slot := slot;
  core_ProcessSlots := processSlots;
  cache_StateByCheckpoint := fun c k => Ok (default None (assoc k c));
  cache_AddCheckpointState := fun c k st => ((k, st) :: c, None);
  stateGen_HasState := fun d root => bool_decide (is_Some (assoc root (genStates d)));
  stateGen_StateByRoot := stateByRoot;
  beaconDB_SaveBlocks := saveBlocks;
  beaconDB_State := fun d root => Ok (assoc root (dbStates d));
  beaconDB_Block := fun d root => Ok (assoc root (dbBlocks d));
  service_HeadRoot := fun d => Ok (headRoot d);
  service_HeadState := fun d => Ok (headState d);
  service_ancestor := getAncestor;
  ToBytes32 := fun x => take 32 (x ++ replicate 32 x00);
  BeaconCommitteeFromState := fun _ _ _ => Ok [5; 11];
  ConvertToIndexed := fun a committee =>
    IndexedAttestation.mk committee (Attestation.Data a) (Attestation.Signature a);
  VerifyIndexedAttestation := verifyIndexed;
  Seed := fun v _ _ => Ok (mix v)
|}.

(** Twelve-second slots and thirty-two-slot epochs, as in the spec's
    scenarios. *)
Definition config : BeaconChainConfig :=
  {| SecondsPerSlot := 12; SlotsPerEpoch := 32; DomainBeaconAttester := [x01; x00; x00; x00] |}.

Definition newStateMgmt : Flags := {| NewStateMgmt := true; CheckHeadState := false |}.
Definition checkHeadState : Flags := {| NewStateMgmt := false; CheckHeadState := true |}.
Definition legacy : Flags := {| NewStateMgmt := false; CheckHeadState := false |}.

Definition R1 : bytes := [x52; x31].
Definition R2 : bytes := [x52; x32].

(** Heap: address 0 is a state at slot 32, address 1 a state at slot 70,
    address 2 a state at slot 40 with another mix. *)
Definition states : list state :=
  [mkState 32 [xaa]; mkState 70 [xaa]; mkState 40 [xbb]].

Definition theStore : tstore :=
  {| genStates := [(ToBytes32 R1, 0%nat); (ToBytes32 R2, 1%nat)];
     dbStates := [(ToBytes32 R1, 0%nat); (ToBytes32 R2, 2%nat)];
     dbBlocks := [(ToBytes32 R1, SignedBeaconBlock.mk (Some (BeaconBlock.mk 32 [])) []);
                  (ToBytes32 R2, SignedBeaconBlock.mk (Some (BeaconBlock.mk 70 R1)) [])];
     headRoot := R2;
     headState := Some 2%nat;
     ancestors := [(R2, R1)] |}.

Definition service : @Service state tstore tcache :=
  {| checkpointStateLock := false;
     checkpointState := [];
     store := theStore;
     initSyncBlocks := [];
     heap := states |}.

(** The same service once the pre-state of checkpoint [(1, R1)] is cached. *)
Definition warmService : @Service state tstore tcache :=
  {| checkpointStateLock := false;
     checkpointState := [(Checkpoint.mk 1 R1, Some 0%nat)];
     store := theStore;
     initSyncBlocks := [];
     heap := states |}.

(** An attestation at slot 70 for head [R2] and target [(2, R1)], carrying
    the given signature. *)
Definition attestation (sig : bytes) : Attestation.t :=
  Attestation.mk [x03]
    (AttestationData.mk 70 0 R2 (Checkpoint.mk 1 R1) (Checkpoint.mk 2 R1)) sig.

End Toy.

(* ===================================================================== *)
(** ** Further readings of the events of a run *)

(** The cache insertions of a run, in order: key, state and result of each
    [AddCheckpointState] call. *)
Definition cacheInsertions (evs : list Event) : list (Checkpoint.t * ptr * option Error) :=
  omap (fun e => match e with
                 | EvAddCheckpointState c st res => Some (c, st, res)
                 | _ => None
                 end) evs.

(** The calls of the NewStateMgmt path: state generator and initial-sync
    flush. *)
Definition isStateGenEvent (e : Event) : bool :=
  match e with
  | EvHasState _ _ | EvSaveBlocks _ _ | EvClearInitSyncBlocks | EvStateByRoot _ _ => true
  | _ => false
  end.

(** The calls of the other path: head accessors and the database's states. *)
Definition isHeadOrDatabaseEvent (e : Event) : bool :=
  match e with
  | EvHeadRoot _ | EvHeadState _ | EvState _ _ => true
  | _ => false
  end.

(** More inputs for the small host of the beacon chain: a service whose
    initial-sync buffer holds one block, a root nobody knows, and an
    attestation for an arbitrary head. *)
Module ToyMore.

Definition R3 : bytes := [x52; x33].

Definition pending : SignedBeaconBlock.t :=
  SignedBeaconBlock.mk (Some (BeaconBlock.mk 71 Toy.R2)) [x07].

Definition syncingService : @Service Toy.state Toy.tstore Toy.tcache :=
  {| checkpointStateLock := false;
     checkpointState := [];
     store := Toy.theStore;
     initSyncBlocks := [pending];
     heap := Toy.states |}.

Definition attestationFor (root sig : bytes) : Attestation.t :=
  Attestation.mk [x03]
    (AttestationData.mk 70 0 root (Checkpoint.mk 1 Toy.R1) (Checkpoint.mk 2 Toy.R1)) sig.

End ToyMore.

(* ===================================================================== *)
(** ** The slasher's entry point (package [main] of [slasher])

    [startSlasher] and the [Before] and [After] hooks that [main] installs
    on the command-line application.  The application framework, the flag
    definitions, logging and the slasher node live outside these sources:
    their calls are fields of [Slasher.Env], and each call is an event. *)

Module Slasher.

(** Errors of this file: an error returned by a callee, or the [fmt.Errorf]
    of [Before] with its format and its string argument. *)
Inductive Error : Type :=
| ErrOther (code : nat)
| Errorf (format : string) (args : list string).

(** What [logrus.SetFormatter] is handed. *)
Inductive Formatter : Type :=
| TextFormatter (TimestampFormat : string) (FullTimestamp DisableColors : bool)
| FluentdFormatter
| JSONFormatter.

(** A [*cli.Context], as far as these functions read it. *)
Module Context.
Record t : Type := mk { IsSet : string -> bool; String : string -> string }.
End Context.

(** The [Name]s of the flags of package [cmd] that are read here. *)
Record FlagNames : Type := {
  VerbosityFlag : string;
  ConfigFileFlag : string;
  LogFormat : string;
  LogFileName : string
}.

Inductive Event : Type :=
| EvConfigureSlasher
| EvParseLevel (verbosity : string) (res : Error + nat)
| EvSetLevel (level : nat)
| EvNewSlasherNode (res : option Error)
| EvStart
| EvInitInputSource (res : option Error)
| EvSetFormatter (f : Formatter)
| EvConfigurePersistentLogging (logFileName : string) (res : option Error)
| EvLogError (err : Error) (message : string)
| EvGOMAXPROCS (n : nat)
| EvDebugSetup (res : option Error)
| EvDebugExit.

(** The callees: [logrus.ParseLevel] (a level is its number),
    [node.NewSlasherNode] (only its error is looked at),
    [altsrc.InitInputSourceWithContext] for the YAML file named by the
    config-file flag (it may change what the context answers),
    [logutil.ConfigurePersistentLogging], [runtime.NumCPU] and
    [debug.Setup]. *)
Record Env : Type := {
  ParseLevel : string -> Error + nat;
  NewSlasherNode : Context.t -> option Error;
  InitInputSource : Context.t -> Context.t * option Error;
  ConfigurePersistentLogging : string -> option Error;
  NumCPU : nat;
  DebugSetup : Context.t -> option Error
}.

Section Main.

Variable names : FlagNames.
Variable env : Env.

(** [startSlasher] *)
Definition startSlasher (ctx : Context.t) : list Event * option Error :=
  let verbosity := Context.String ctx (VerbosityFlag names) in
  match ParseLevel env verbosity with
  | inl err => ([EvConfigureSlasher; EvParseLevel verbosity (inl err)], Some err)
  | inr level =>
      match NewSlasherNode env ctx with
      | Some err =>
          ([EvConfigureSlasher; EvParseLevel verbosity (inr level); EvSetLevel level;
            EvNewSlasherNode (Some err)], Some err)
      | None =>
          ([EvConfigureSlasher; EvParseLevel verbosity (inr level); EvSetLevel level;
            EvNewSlasherNode None; EvStart], None)
      end
  end.

(** The first block of [app.Before]: load any flags from file, if specified.
    Returns the context as the file leaves it. *)
Definition loadFlagsFromFile (ctx : Context.t) : Context.t * list Event * option Error :=
  if Context.IsSet ctx (ConfigFileFlag names) then
    let '(ctx', res) := InitInputSource env ctx in
    (ctx', [EvInitInputSource res], res)
  else (ctx, [], None).

(** The [switch format] of [app.Before]: the formatter to install, if the
    format is a known one. *)
Definition formatterFor (ctx : Context.t) (format : string) : option Formatter :=
  if String.eqb format "text" then
    Some (TextFormatter "2006-01-02 15:04:05" true
            (negb (String.eqb (Context.String ctx (LogFileName names)) "")))
  else if String.eqb format "fluentd" then Some FluentdFormatter
  else if String.eqb format "json" then Some JSONFormatter
  else None.

(** [app.Before] *)
Definition Before (ctx : Context.t) : list Event * option Error :=
  match loadFlagsFromFile ctx with
  | (_, evs, Some err) => (evs, Some err)
  | (ctx, evs, None) =>
      let format := Context.String ctx (LogFormat names) in
      match formatterFor ctx format with
      | None => (evs, Some (Errorf "unknown log format %s" [format]))
      | Some formatter =>
          let logFileName := Context.String ctx (LogFileName names) in
          let logging :=
            if negb (String.eqb logFileName "") then
              match ConfigurePersistentLogging env logFileName with
              | Some err =>
                  [EvConfigurePersistentLogging logFileName (Some err);
                   EvLogError err "Failed to configuring logging to disk."]
              | None => [EvConfigurePersistentLogging logFileName None]
              end
            else [] in
          let res := DebugSetup env ctx in
          (evs ++ [EvSetFormatter formatter] ++ logging ++
             [EvGOMAXPROCS (NumCPU env); EvDebugSetup res], res)
      end
  end.

(** [app.After] *)
Definition After (ctx : Context.t) : list Event * option Error :=
  ([EvDebugExit], None).

End Main.

(** A small environment: the levels [info] and [debug] parse, the node
    starts, the YAML file sets the log format to [json], and logging to
    disk fails for the file [/ro/log]. *)
Definition toyNames : FlagNames :=
  {| VerbosityFlag := "verbosity"; ConfigFileFlag := "config-file";
     LogFormat := "log-format"; LogFileName := "log-file" |}.

Definition toyEnv : Env :=
  {| ParseLevel := fun v =>
       if String.eqb v "info" then inr 4%nat
       else if String.eqb v "debug" then inr 5%nat
       else inl (ErrOther 1);
     NewSlasherNode := fun _ => None;
     InitInputSource := fun ctx =>
       (Context.mk (Context.IsSet ctx)
          (fun n => if String.eqb n "log-format" then "json"%string else Context.String ctx n),
        None);
     ConfigurePersistentLogging := fun f =>
       if String.eqb f "/ro/log" then Some (ErrOther 2) else None;
     NumCPU := 8;
     DebugSetup := fun _ => None |}.

(** A context from an association list of flags given on the command line;
    a flag that is not set reads as the empty string. *)
Fixpoint lookupFlag (n : string) (l : list (string * string)) : option string :=
  match l with
  | [] => None
  | (k, v) :: l' => if String.eqb n k then Some v else lookupFlag n l'
  end.

Definition toyContext (l : list (string * string)) : Context.t :=
  Context.mk (fun n => match lookupFlag n l with Some _ => true | None => false end)
             (fun n => default ""%string (lookupFlag n l)).

End Slasher.

(* ===================================================================== *)
(** ** The host's answer to the base-state fetch of [getAttPreState] *)

Section BaseState.

Context {BeaconState Store Cache : Type} `{!Host BeaconState Store Cache}.

Variable fc : Flags.

(** The store as the NewStateMgmt path of [getAttPreState] leaves it just
    before it asks the state generator for [root]: the store itself when the
    generator has the state, the store after [SaveBlocks] of the
    initial-sync buffer when it has not; none when [SaveBlocks] fails. *)
Definition storeBeforeFetch (s : @Service BeaconState Store Cache) (root : bytes) :
    option Store :=
  if stateGen_HasState (store s) root then Some (store s)
  else
    match beaconDB_SaveBlocks (store s) (initSyncBlocks s) with
    | (d, None) => Some d
    | (_, Some _) => None
    end.

(** What the host answers when [getAttPreState] asks for the base state at
    [root]: the state generator's [StateByRoot] under NewStateMgmt (after
    the flush above), the database's [State] otherwise. *)
Definition baseStateAnswer (s : @Service BeaconState Store Cache) (root : bytes) :
    option (outcome ptr) :=
  if NewStateMgmt fc then
    match storeBeforeFetch s root with
    | Some d => Some (stateGen_StateByRoot d root).2
    | None => None
    end
  else Some (beaconDB_State (store s) root).

(** The run gets as far as the base-state fetch: under NewStateMgmt always;
    otherwise when CheckHeadState is off or the head root is read and is
    not the checkpoint's root. *)
Definition reachesBaseState (s : @Service BeaconState Store Cache) (c : Checkpoint.t) : Prop :=
  NewStateMgmt fc = true \/
  CheckHeadState fc = false \/
  exists headRoot, service_HeadRoot (store s) = Ok headRoot /\ headRoot <> Checkpoint.Root c.

End BaseState.

(* ===================================================================== *)
(** * Properties *)

(** ** Unsigned 64-bit arithmetic *)

Lemma u64_sub_no_wrap a b :
  U64.in_range a -> U64.in_range b -> b <= a -> U64.sub a b = a - b.
Proof.
  unfold U64.in_range, U64.sub, U64.modulus. intros Ha Hb Hle.
  apply Z.mod_small. lia.
Qed.

Lemma u64_sub_wrap a b :
  U64.in_range a -> U64.in_range b -> a < b -> U64.sub a b = U64.modulus - (b - a).
Proof.
  unfold U64.in_range, U64.sub, U64.modulus. intros Ha Hb Hlt.
  replace (a - b) with ((2 ^ 64 - (b - a)) + (-1) * 2 ^ 64) by lia.
  rewrite Z.mod_add by lia. apply Z.mod_small. lia.
Qed.

Lemma u64_sub_in_range a b : U64.in_range (U64.sub a b).
Proof. unfold U64.in_range, U64.sub, U64.modulus. apply Z.mod_pos_bound. lia. Qed.

Lemma u64_div_in_range a b : U64.in_range a -> 0 < b -> U64.in_range (U64.div a b).
Proof.
  unfold U64.in_range, U64.div, U64.modulus. intros Ha Hb. split.
  - apply Z.div_pos; lia.
  - apply Z.le_lt_trans with a; [|lia].
    apply Z.div_le_upper_bound; nia.
Qed.

(** ** The target-epoch check *)

(** The two epochs the check accepts, as the source computes them. *)
Lemma verifyAttTargetEpoch_unfold cfg genesisTime nowTime c :
  config_ok cfg ->
  let cur := U64.sub nowTime genesisTime / SecondsPerSlot cfg / SlotsPerEpoch cfg in
  let prev := if 1 <? cur then cur - 1 else 0 in
  verifyAttTargetEpoch cfg genesisTime nowTime c =
    if negb (Checkpoint.Epoch c =? prev) && negb (Checkpoint.Epoch c =? cur)
    then Some (Errorf "target epoch %d does not match current epoch %d or prev epoch %d"
                 [ArgUint (Checkpoint.Epoch c); ArgUint cur; ArgUint prev])
    else None.
Proof.
  intros [Hs He] cur prev.
  unfold verifyAttTargetEpoch, SlotToEpoch, U64.div. fold cur. rewrite Z.gtb_ltb.
  assert (Hcur : U64.in_range cur).
  { apply u64_div_in_range; [|lia]. apply u64_div_in_range; [|lia].
    apply u64_sub_in_range. }
  assert (Hprev : (if 1 <? cur then U64.sub cur 1 else 0) = prev).
  { unfold prev. destruct (1 <? cur) eqn:E; [|reflexivity].
    apply Z.ltb_lt in E. apply u64_sub_no_wrap; [done| |lia].
    unfold U64.in_range, U64.modulus. lia. }
  rewrite Hprev. reflexivity.
Qed.

(** The check passes exactly on the previous and the current epoch. *)
Lemma verifyAttTargetEpoch_None_iff cfg genesisTime nowTime c :
  config_ok cfg ->
  let cur := U64.sub nowTime genesisTime / SecondsPerSlot cfg / SlotsPerEpoch cfg in
  let prev := if decide (cur > 1) then cur - 1 else 0 in
  verifyAttTargetEpoch cfg genesisTime nowTime c = None <->
  Checkpoint.Epoch c = prev \/ Checkpoint.Epoch c = cur.
Proof.
  intros Hcfg cur prev.
  rewrite (verifyAttTargetEpoch_unfold cfg genesisTime nowTime c Hcfg). cbv zeta.
  fold cur.
  assert (Hprev : (if 1 <? cur then cur - 1 else 0) = prev).
  { unfold prev. destruct (1 <? cur) eqn:E; case_decide; try reflexivity.
    - apply Z.ltb_lt in E. lia.
    - apply Z.ltb_ge in E. lia. }
  rewrite Hprev. split.
  - destruct (Checkpoint.Epoch c =? prev) eqn:E1; simpl.
    + apply Z.eqb_eq in E1. auto.
    + destruct (Checkpoint.Epoch c =? cur) eqn:E2; simpl; [|congruence].
      apply Z.eqb_eq in E2. auto.
  - intros [H1 | H1]; apply Z.eqb_eq in H1; rewrite H1; simpl; [reflexivity|].
    destruct (Checkpoint.Epoch c =? prev); reflexivity.
Qed.

(** C3. For every call of [verifyAttTargetEpoch], with
    [current_slot = (nowTime - genesisTime) / SECONDS_PER_SLOT] (the
    subtraction being Go's, on [uint64]),
    [current_epoch = current_slot / SLOTS_PER_EPOCH] and [prev_epoch] equal
    to [current_epoch - 1] when [current_epoch > 1] and to [0] otherwise, the
    check returns an error iff the checkpoint's epoch is neither
    [prev_epoch] nor [current_epoch]; without clock underflow the
    subtraction is the mathematical one; and when [current_epoch = 0] only
    target epoch 0 is accepted. *)
Theorem verifyAttTargetEpoch_accepts_prev_and_current cfg genesisTime nowTime c :
  config_ok cfg ->
  U64.in_range genesisTime ->
  U64.in_range nowTime ->
  let current_slot := ((nowTime - genesisTime) mod 2 ^ 64) / SecondsPerSlot cfg in
  let current_epoch := current_slot / SlotsPerEpoch cfg in
  let prev_epoch := if decide (current_epoch > 1) then current_epoch - 1 else 0 in
  (verifyAttTargetEpoch cfg genesisTime nowTime c <> None <->
     Checkpoint.Epoch c <> prev_epoch /\ Checkpoint.Epoch c <> current_epoch) /\
  (verifyAttTargetEpoch cfg genesisTime nowTime c = None <->
     Checkpoint.Epoch c = prev_epoch \/ Checkpoint.Epoch c = current_epoch) /\
  (genesisTime <= nowTime ->
     current_slot = (nowTime - genesisTime) / SecondsPerSlot cfg) /\
  (current_epoch = 0 ->
     (verifyAttTargetEpoch cfg genesisTime nowTime c = None <-> Checkpoint.Epoch c = 0)).
Proof.
  intros Hcfg Hg Hn current_slot current_epoch prev_epoch.
  pose proof (verifyAttTargetEpoch_unfold cfg genesisTime nowTime c Hcfg) as Hv.
  cbv zeta in Hv.
  change (U64.sub nowTime genesisTime / SecondsPerSlot cfg / SlotsPerEpoch cfg)
    with current_epoch in Hv.
  assert (Hprev : (if 1 <? current_epoch then current_epoch - 1 else 0) = prev_epoch).
  { unfold prev_epoch. destruct (1 <? current_epoch) eqn:E; case_decide; try reflexivity.
    - apply Z.ltb_lt in E. lia.
    - apply Z.ltb_ge in E. lia. }
  rewrite Hprev in Hv. rewrite Hv.
  assert (Hiff : forall x y : Z, (x =? y) = true <-> x = y) by (intros; apply Z.eqb_eq).
  repeat split.
  - destruct (Checkpoint.Epoch c =? prev_epoch) eqn:E; simpl in *; [congruence|].
    apply Z.eqb_neq in E. done.
  - destruct (Checkpoint.Epoch c =? prev_epoch) eqn:E1; simpl in *; [congruence|].
    destruct (Checkpoint.Epoch c =? current_epoch) eqn:E2; simpl in *; [congruence|].
    apply Z.eqb_neq in E2. done.
  - intros [H1 H2]. apply Z.eqb_neq in H1, H2. rewrite H1, H2. simpl. congruence.
  - destruct (Checkpoint.Epoch c =? prev_epoch) eqn:E1; simpl.
    + apply Z.eqb_eq in E1. auto.
    + destruct (Checkpoint.Epoch c =? current_epoch) eqn:E2; simpl; [|congruence].
      apply Z.eqb_eq in E2. auto.
  - intros [H1 | H1]; apply Z.eqb_eq in H1; rewrite H1; simpl; [reflexivity|].
    destruct (Checkpoint.Epoch c =? prev_epoch); reflexivity.
  - intros Hle. unfold current_slot. f_equal.
    apply Z.mod_small. unfold U64.in_range, U64.modulus in *. lia.
  - assert (prev_epoch = 0) as -> by (unfold prev_epoch; case_decide; lia).
    rewrite H. destruct (Checkpoint.Epoch c =? 0) eqn:E; simpl; [|congruence].
    intros _. apply Z.eqb_eq in E. done.
  - assert (prev_epoch = 0) as -> by (unfold prev_epoch; case_decide; lia).
    intros ->. rewrite H. reflexivity.
Qed.

(** C3, on the spec's second scenario: twelve-second slots, thirty-two-slot
    epochs, genesis at 0 and the clock in epoch 5; target epoch 2 is refused. *)
Lemma verifyAttTargetEpoch_accepts_prev_and_current_witness :
  verifyAttTargetEpoch Toy.config 0 (12 * 32 * 5) (Checkpoint.mk 2 Toy.R1) <> None <->
  2 <> 4 /\ 2 <> 5.
Proof.
  pose proof (verifyAttTargetEpoch_accepts_prev_and_current Toy.config 0 (12 * 32 * 5)
                (Checkpoint.mk 2 Toy.R1)) as H.
  assert (Hcfg : config_ok Toy.config) by (unfold config_ok, U64.modulus; simpl; lia).
  assert (H0 : U64.in_range 0) by (unfold U64.in_range, U64.modulus; lia).
  assert (H1 : U64.in_range (12 * 32 * 5)) by (unfold U64.in_range, U64.modulus; lia).
  exact (proj1 (H Hcfg H0 H1)).
Defined.

(** C10, as amended.  [verifyAttTargetEpoch] subtracts in unchecked
    [uint64] arithmetic: for every call with [nowTime < genesisTime] the
    difference wraps to [2^64 - (genesisTime - nowTime)], a positive number,
    and the current epoch is that number divided by the slot and epoch
    lengths: nothing fails and nothing is clamped to zero.  The epoch is
    enormous when the clock is not too far behind: with the clock behind
    genesis by at most [2^63] seconds it is at least
    [2^63 / (SECONDS_PER_SLOT * SLOTS_PER_EPOCH)]; and the check refuses
    every target epoch [e >= 0] with
    [(e + 2) * SECONDS_PER_SLOT * SLOTS_PER_EPOCH <= 2^64 - (genesisTime - nowTime)],
    that is every target below the previous epoch of the wrapped current
    epoch. *)
Theorem verifyAttTargetEpoch_clock_underflow cfg genesisTime nowTime c :
  config_ok cfg ->
  U64.in_range genesisTime ->
  U64.in_range nowTime ->
  nowTime < genesisTime ->
  let wrapped := 2 ^ 64 - (genesisTime - nowTime) in
  let current_epoch := wrapped / SecondsPerSlot cfg / SlotsPerEpoch cfg in
  let prev_epoch := if decide (current_epoch > 1) then current_epoch - 1 else 0 in
  U64.sub nowTime genesisTime = wrapped /\
  0 < wrapped /\
  (verifyAttTargetEpoch cfg genesisTime nowTime c = None <->
     Checkpoint.Epoch c = prev_epoch \/ Checkpoint.Epoch c = current_epoch) /\
  (genesisTime - nowTime <= 2 ^ 63 ->
     2 ^ 63 / (SecondsPerSlot cfg * SlotsPerEpoch cfg) <= current_epoch) /\
  (0 <= Checkpoint.Epoch c ->
   (Checkpoint.Epoch c + 2) * (SecondsPerSlot cfg * SlotsPerEpoch cfg) <= wrapped ->
     verifyAttTargetEpoch cfg genesisTime nowTime c =
       Some (Errorf "target epoch %d does not match current epoch %d or prev epoch %d"
               [ArgUint (Checkpoint.Epoch c); ArgUint current_epoch;
                ArgUint (current_epoch - 1)])).
Proof.
  intros Hcfg Hg Hn Hlt wrapped current_epoch prev_epoch.
  assert (Hw : U64.sub nowTime genesisTime = wrapped).
  { unfold wrapped. rewrite u64_sub_wrap by done. reflexivity. }
  pose proof (verifyAttTargetEpoch_None_iff cfg genesisTime nowTime c Hcfg) as Hnone.
  cbv zeta in Hnone. rewrite Hw in Hnone.
  destruct Hcfg as [Hs He].
  assert (Hdd : current_epoch = wrapped / (SecondsPerSlot cfg * SlotsPerEpoch cfg)).
  { unfold current_epoch. rewrite Z.div_div by lia. reflexivity. }
  assert (Hpos : 0 < SecondsPerSlot cfg * SlotsPerEpoch cfg) by (apply Z.mul_pos_pos; lia).
  split; [exact Hw|]. split.
  { unfold wrapped, U64.in_range, U64.modulus in *. lia. }
  split; [exact Hnone|]. split.
  - intros Hskew. rewrite Hdd. apply Z.div_le_mono; [exact Hpos|].
    unfold wrapped. lia.
  - intros Hc0 Hfar.
    assert (Hge : Checkpoint.Epoch c + 2 <= current_epoch).
    { rewrite Hdd. apply Z.div_le_lower_bound; [exact Hpos|]. lia. }
    rewrite (verifyAttTargetEpoch_unfold cfg genesisTime nowTime c (conj Hs He)).
    cbv zeta. rewrite Hw. fold current_epoch.
    assert (H1 : (1 <? current_epoch) = true) by (apply Z.ltb_lt; lia).
    rewrite H1.
    assert (H2 : (Checkpoint.Epoch c =? current_epoch - 1) = false) by (apply Z.eqb_neq; lia).
    assert (H3 : (Checkpoint.Epoch c =? current_epoch) = false) by (apply Z.eqb_neq; lia).
    rewrite H2, H3. reflexivity.
Qed.

(** C10, with the clock one second behind a genesis at 1,600,000,000: the
    wrapped difference is [2^64 - 1] and target epoch 10 is refused. *)
Lemma verifyAttTargetEpoch_clock_underflow_witness :
  U64.sub 1599999999 1600000000 = 2 ^ 64 - 1 /\
  verifyAttTargetEpoch Toy.config 1600000000 1599999999 (Checkpoint.mk 10 Toy.R1) =
    Some (Errorf "target epoch %d does not match current epoch %d or prev epoch %d"
            [ArgUint 10; ArgUint 48038396025285290; ArgUint 48038396025285289]).
Proof.
  assert (Hcfg : config_ok Toy.config) by (unfold config_ok, U64.modulus; simpl; lia).
  assert (H0 : U64.in_range 1600000000) by (unfold U64.in_range, U64.modulus; lia).
  assert (H1 : U64.in_range 1599999999) by (unfold U64.in_range, U64.modulus; lia).
  assert (H2 : 1599999999 < 1600000000) by lia.
  destruct (verifyAttTargetEpoch_clock_underflow Toy.config 1600000000 1599999999
              (Checkpoint.mk 10 Toy.R1) Hcfg H0 H1 H2) as (Hw & _ & _ & _ & Hrej).
  split; [exact Hw|].
  apply Hrej; [simpl; lia|]. vm_compute. discriminate.
Defined.

(** C10 as stated fails for a genesis time close to [2^64] seconds ahead of
    the clock: with [genesisTime = 2^64 - 1] and [nowTime = 0] the
    difference wraps to 1, the current epoch is 0, not an enormous one, and
    target epoch 0 is accepted. *)
Lemma verifyAttTargetEpoch_clock_underflow_small_epoch :
  0 < 2 ^ 64 - 1 /\
  U64.sub 0 (2 ^ 64 - 1) = 1 /\
  SlotToEpoch Toy.config (U64.div (U64.sub 0 (2 ^ 64 - 1)) (SecondsPerSlot Toy.config)) = 0 /\
  verifyAttTargetEpoch Toy.config (2 ^ 64 - 1) 0 (Checkpoint.mk 0 Toy.R1) = None.
Proof. repeat split; vm_compute; reflexivity. Qed.

(* ===================================================================== *)
(** ** Runs over an arbitrary host *)

(** Unfolds a method body down to the calls of the host. *)
Ltac unfold_run :=
  unfold getAttPreState, verifyBeaconBlock, verifyLMDFFGConsistent, verifyAttestation, Slot,
    defer, orWrap, bind, ret, fail, lift, abort,
    Lock, Unlock, StateByCheckpoint, AddCheckpointState, HasState, StateByRoot,
    SaveBlocks, State, Block, HeadRoot, HeadState, ancestor,
    getInitSyncBlocks, clearInitSyncBlocks, Copy, ProcessSlots, load, ofError,
    bytes_Equal in *.

(** Membership in an explicit list of events, as a hypothesis and as a goal. *)
Ltac inv_elem :=
  repeat match goal with
  | H : _ ∈ [] |- _ => apply elem_of_nil in H; destruct H
  | H : _ ∈ _ :: _ |- _ =>
      apply elem_of_cons in H; destruct H as [H|H]; [try discriminate H|]
  end.

Ltac elem_here :=
  repeat first [ apply elem_of_cons; left; reflexivity | apply elem_of_cons; right ].

(** The heap after a [Copy] (one more object at the end) and after a
    [ProcessSlots] of that copy. *)
Lemma lookup_snoc_fresh {A : Type} (h : list A) (v : A) :
  (h ++ [v]) !! length h = Some v.
Proof. by apply list_lookup_middle. Qed.

Lemma lookup_snoc_old {A : Type} (h : list A) (v : A) (a : nat) (w : A) :
  h !! a = Some w -> (h ++ [v]) !! a = Some w.
Proof. apply lookup_app_l_Some. Qed.

Lemma lookup_snoc_lt {A : Type} (h : list A) (v : A) (a : nat) :
  (a < length h)%nat -> (h ++ [v]) !! a = h !! a.
Proof. intros. by apply lookup_app_l. Qed.

Lemma insert_snoc_fresh {A : Type} (h : list A) (v w : A) :
  <[length h := w]> (h ++ [v]) = h ++ [w].
Proof. induction h as [|x h IH]; simpl; [done|]. by rewrite IH. Qed.

Ltac heap_step :=
  match goal with
  | H : context [ (?h ++ [?v]) !! length ?h ] |- _ =>
      rewrite (lookup_snoc_fresh h v) in H
  | H : context [ <[length ?h := ?w]> (?h ++ [?v]) ] |- _ =>
      rewrite (insert_snoc_fresh h v w) in H
  | H1 : ?h !! ?a = Some ?w, H : context [ (?h ++ [?v]) !! ?a ] |- _ =>
      rewrite (lookup_snoc_old h v a w H1) in H
  end.

(** One step of a run [H : body s = (s', evs, r)]: case analysis on the
    innermost result the body is waiting for. *)
Ltac run_split H :=
  match type of H with
  | context [match ?x with _ => _ end] =>
      lazymatch x with
      | context [match _ with _ => _ end] => fail
      | _ => destruct x eqn:?
      end
  end.

Ltac run_step H :=
  first [ heap_step | run_split H; try discriminate; simpl in H | progress simplify_eq/= ].

(** All the paths of a run. *)
Ltac run_all H := unfold_run; rewrite ?Z.gtb_ltb in H; repeat run_step H.

Section Properties.

Context {BeaconState Store Cache : Type} `{!Host BeaconState Store Cache}.

Variable cfg : BeaconChainConfig.
Variable fc : Flags.

Lemma set_checkpointStateLock_release (s : @Service BeaconState Store Cache) :
  checkpointStateLock s = false ->
  set_checkpointStateLock false (set_checkpointStateLock true s) = s.
Proof. destruct s; simpl; intros ->; reflexivity. Qed.

(** *** [getAttPreState] *)

(** C8. For every checkpoint [c] resident in the checkpoint-state cache (the
    cache answers the lookup with a state [a]), [getAttPreState] returns the
    cached state; the run consists of taking the guard, the cache lookup and
    releasing the guard, so there is no state-store read, no state-generator
    call, no initial-sync flush and no cache insertion, and the service is
    left as it was. *)
Theorem getAttPreState_cache_hit (s : @Service BeaconState Store Cache) c a :
  checkpointStateLock s = false ->
  cache_StateByCheckpoint (checkpointState s) c = Ok (Some a) ->
  getAttPreState cfg fc c s =
    (s, [EvLock; EvStateByCheckpoint c (Ok (Some a)); EvUnlock], Ok (Some a)).
Proof.
  intros Hfree Hhit. unfold_run. rewrite Hfree. simpl. rewrite Hhit. simpl.
  rewrite set_checkpointStateLock_release by done. reflexivity.
Qed.

(** C7. For every base state whose slot equals [epoch_start(c.epoch)],
    [getAttPreState] performs no slot advancement and returns that base
    state unchanged.  The base state is the one the host holds: on a cache
    miss with the guard free, the state generator (under NewStateMgmt, after
    any flush) or the database (otherwise, when the head shortcut is not
    taken) answers the fetch with the object at address [a], whose slot is
    the start slot; the cache accepts the insertion.  Then the call returns
    [a], the run has no [ProcessSlots] call, the object at [a] keeps its
    value, and the guard is free again. *)
Theorem getAttPreState_equal_slot (s : @Service BeaconState Store Cache) c a v :
  checkpointStateLock s = false ->
  cache_StateByCheckpoint (checkpointState s) c = Ok None ->
  reachesBaseState fc s c ->
  baseStateAnswer fc s (ToBytes32 (Checkpoint.Root c)) = Some (Ok (Some a)) ->
  heap s !! a = Some v ->
  state_Slot v = StartSlot cfg (Checkpoint.Epoch c) ->
  (forall st, (cache_AddCheckpointState (checkpointState s) c st).2 = None) ->
  let run := getAttPreState cfg fc c s in
  run.2 = Ok (Some a) /\
  (forall q t res, EvProcessSlots q t res ∉ run.1.2) /\
  heap run.1.1 !! a = Some v /\
  checkpointStateLock run.1.1 = false.
Proof.
  intros Hfree Hmiss Hreach Hbase Hv Hslot Hadd run. subst run.
  unfold baseStateAnswer, storeBeforeFetch, reachesBaseState in *.
  destruct (getAttPreState cfg fc c s) as [[s' evs] r] eqn:Hrun. simpl.
  run_all Hrun.
  all: repeat match goal with
       | H : negb _ = true |- _ => apply negb_true_iff in H
       | H : negb _ = false |- _ => apply negb_false_iff in H
       | H : bool_decide _ = true |- _ => apply bool_decide_eq_true in H
       | H : bool_decide _ = false |- _ => apply bool_decide_eq_false in H
       | H1 : ?x = _, H2 : context [?x] |- _ =>
           lazymatch type of H2 with
           | x = _ => fail
           | _ => rewrite H1 in H2; simpl in H2
           end
       end.
  all: simplify_eq/=.
  all: try match goal with
       | H : cache_AddCheckpointState _ _ ?st = (_, Some _) |- _ =>
           pose proof (Hadd st) as Hnone; rewrite H in Hnone; discriminate Hnone
       end.
  all: try match goal with
       | H : (_ >? _) = true |- _ => rewrite Z.gtb_ltb in H; apply Z.ltb_lt in H; lia
       end.
  all: try (destruct Hreach as [Hr|[Hr|(hr & Hr & Hne)]]; simplify_eq/=; congruence).
  all: split; [reflexivity|].
  all: split; [intros q t res Hin; inv_elem|].
  all: split; [eauto using lookup_snoc_old|reflexivity].
Qed.

(** C6. In every run of [getAttPreState] that fetches a base state (from the
    state generator or the database, at address [a]) with
    [epoch_start(c.epoch) > base_state.slot], the base state is copied to a
    fresh object [b], [ProcessSlots] is called on [b] with target
    [epoch_start(c.epoch)] and on nothing else, and the call leaves the base
    state, and every other state that existed before the call, unchanged. *)
Theorem getAttPreState_copy_before_advance
    (s s' : @Service BeaconState Store Cache) evs r c a v :
  getAttPreState cfg fc c s = (s', evs, r) ->
  baseFetched evs (ToBytes32 (Checkpoint.Root c)) a ->
  heap s !! a = Some v ->
  state_Slot v < StartSlot cfg (Checkpoint.Epoch c) ->
  let b := length (heap s) in
  EvCopy a b ∈ evs /\
  (exists res, EvProcessSlots b (StartSlot cfg (Checkpoint.Epoch c)) res ∈ evs) /\
  (forall q t res, EvProcessSlots q t res ∈ evs ->
     q = b /\ t = StartSlot cfg (Checkpoint.Epoch c) /\ q <> a) /\
  heap s' !! a = Some v /\
  (forall q, (q < length (heap s))%nat -> heap s' !! q = heap s !! q).
Proof.
  intros Hrun Hbase Hv Hslot b.
  assert (Hab : b <> a).
  { apply lookup_lt_Some in Hv. unfold b. lia. }
  unfold b in *. clear b.
  run_all Hrun.
  all: destruct Hbase as [Hbase|Hbase]; inv_elem; simplify_eq/=.
  all: try lia.
  all: split; [elem_here|].
  all: split; [eexists; elem_here|].
  all: split; [intros q t res Hin; inv_elem; simplify_eq/=; done|].
  all: split; [eauto using lookup_snoc_old|].
  all: intros q Hq; rewrite ?lookup_snoc_lt; rewrite ?length_app; simpl; try done; lia.
Qed.

(** C1, as amended.  In the branches of [getAttPreState] that fetch a base
    state (the NewStateMgmt branch and the two database branches), every
    state inserted into the checkpoint-state cache is inserted under the key
    [c] and has slot [max(base_state.slot, epoch_start(c.epoch))]: it is at
    [epoch_start(c.epoch)] exactly when the base state is not already past
    it.  This rests on [ProcessSlots] leaving, on success, a state at the
    slot it was asked for. *)
Theorem getAttPreState_cached_state_slot
    (s s' : @Service BeaconState Store Cache) evs r c a v :
  (forall w t w', core_ProcessSlots w t = (w', None) -> state_Slot w' = t) ->
  getAttPreState cfg fc c s = (s', evs, r) ->
  baseFetched evs (ToBytes32 (Checkpoint.Root c)) a ->
  heap s !! a = Some v ->
  forall c' st res, EvAddCheckpointState c' st res ∈ evs ->
    c' = c /\
    exists b w, st = Some b /\ heap s' !! b = Some w /\
      state_Slot w = Z.max (state_Slot v) (StartSlot cfg (Checkpoint.Epoch c)).
Proof.
  intros Hps Hrun Hbase Hv c' st res Hin.
  run_all Hrun.
  all: destruct Hbase as [Hbase|Hbase]; inv_elem; simplify_eq/=.
  all: split; [reflexivity|].
  all: do 2 eexists; split; [reflexivity|].
  all: repeat match goal with
       | H : core_ProcessSlots _ _ = (_, None) |- _ => apply Hps in H
       | H : (_ <? _) = true |- _ => apply Z.ltb_lt in H
       | H : (_ <? _) = false |- _ => apply Z.ltb_ge in H
       end.
  all: split; [first [ apply lookup_snoc_fresh | eassumption
                     | apply lookup_snoc_old; eassumption ] | lia].
Qed.

(** C9, as amended.  [getAttPreState] takes the cache guard first and
    releases it last (the deferred unlock).  A call that finds the guard
    held does nothing but wait.  A call that finds it free starts with
    [Lock], ends with [Unlock], leaves the guard free, and every event in
    between (cache lookup and insertion, and equally the initial-sync flush,
    the state-store and state-generator reads, the copies and
    [ProcessSlots]) happens while the guard is held. *)
Theorem getAttPreState_guard_scope (s : @Service BeaconState Store Cache) c :
  (checkpointStateLock s = true ->
     getAttPreState cfg fc c s = (s, [], Abort Blocked)) /\
  (checkpointStateLock s = false ->
     forall s' evs r,
       getAttPreState cfg fc c s = (s', evs, r) ->
       checkpointStateLock s' = false /\
       head evs = Some EvLock /\
       last evs = Some EvUnlock /\
       (forall e held, (e, held) ∈ guardTrace false evs ->
          held = match e with EvLock => false | _ => true end)).
Proof.
  split.
  - intros Hheld. unfold_run. rewrite Hheld. reflexivity.
  - intros Hfree s' evs r Hrun.
    run_all Hrun.
    all: split; [reflexivity|].
    all: split; [reflexivity|].
    all: split; [reflexivity|].
    all: intros ev held Hin; inv_elem; simplify_eq/=; reflexivity.
Qed.

(** *** [verifyBeaconBlock] *)

(** C4. [verifyBeaconBlock] looks up the block at the attestation's
    [beacon_block_root].  When the database has no block there (or a block
    without a body) it returns the unknown-head error; when it has one, it
    returns the predates-block error iff the stored block's slot is strictly
    greater than the attestation's slot and succeeds iff it is not, so a
    head block at exactly the attestation slot is accepted. *)
Theorem verifyBeaconBlock_outcomes (s : @Service BeaconState Store Cache) data :
  let root := ToBytes32 (AttestationData.BeaconBlockRoot data) in
  let found := beaconDB_Block (store s) root in
  let run := verifyBeaconBlock data s in
  (forall b, found = Ok b -> b ≫= SignedBeaconBlock.Block = None ->
     run = (s, [EvBlock root found],
            Err (Errorf "beacon block %#x does not exist"
                   [ArgBytes (AttestationData.BeaconBlockRoot data)]))) /\
  (forall b blk, found = Ok (Some b) -> SignedBeaconBlock.Block b = Some blk ->
     run.1 = (s, [EvBlock root found]) /\
     (run.2 = Err (Errorf "could not process attestation for future block, block.Slot=%d > attestation.Data.Slot=%d"
                     [ArgUint (BeaconBlock.Slot blk); ArgUint (AttestationData.Slot data)])
      <-> AttestationData.Slot data < BeaconBlock.Slot blk) /\
     (run.2 = Ok tt <-> BeaconBlock.Slot blk <= AttestationData.Slot data) /\
     (BeaconBlock.Slot blk = AttestationData.Slot data -> run.2 = Ok tt)).
Proof.
  intros root found run. subst run found root. unfold_run. split.
  - intros b Hb Hnone. rewrite Hb. simpl. rewrite Hnone. reflexivity.
  - intros b blk Hb Hblk. rewrite Hb. simpl. rewrite Hblk. simpl. rewrite Z.gtb_ltb.
    destruct (AttestationData.Slot data <? BeaconBlock.Slot blk) eqn:E; simpl.
    + apply Z.ltb_lt in E. repeat split; try done; try lia.
    + apply Z.ltb_ge in E. repeat split; try done; try lia.
Qed.

(** *** [verifyLMDFFGConsistent] *)

(** C5. For every [(ffgEpoch, ffgRoot, lmdRoot)] on which the ancestor
    oracle succeeds with a root [r], [verifyLMDFFGConsistent] succeeds iff
    [r], the ancestor of [lmdRoot] at [epoch_start(ffgEpoch)], equals
    [ffgRoot] byte for byte, and fails with the inconsistency error iff it
    does not. *)
Theorem verifyLMDFFGConsistent_iff
    (s : @Service BeaconState Store Cache) ffgEpoch ffgRoot lmdRoot r :
  service_ancestor (store s) lmdRoot (StartSlot cfg ffgEpoch) = Ok r ->
  let run := verifyLMDFFGConsistent cfg ffgEpoch ffgRoot lmdRoot s in
  run.1 = (s, [EvAncestor lmdRoot (StartSlot cfg ffgEpoch) (Ok r)]) /\
  (run.2 = Ok tt <-> r = ffgRoot) /\
  (run.2 = Err (Errorf "FFG and LMD votes are not consistent" []) <-> r <> ffgRoot).
Proof.
  intros Hanc run. subst run. unfold_run. rewrite Hanc. simpl.
  case_bool_decide; simpl; repeat split; try done; try congruence.
Qed.

(** *** [verifyAttestation] *)

(** C2. Let the indexed-attestation verification of an attestation fail
    with [err].  If [err] is not the signature-failure sentinel, it is
    returned (wrapped) and nothing else happens: no reconciliation.  If it is
    the sentinel, [verifyAttestation] asks for the state at the attestation's
    [beacon_block_root] (unless the initial-sync flush before it fails), and,
    with that state and the two seeds at hand, returns the seed-mismatch
    error when [seed(target_pre_state, epoch, DOMAIN_BEACON_ATTESTER)] and
    [seed(head_state, epoch, DOMAIN_BEACON_ATTESTER)] differ and the original
    signature-failure error (wrapped) when they are equal. *)
Theorem verifyAttestation_seed_reconciliation
    (s s' : @Service BeaconState Store Cache) evs r p a base committee err :
  let data := Attestation.Data a in
  let root := ToBytes32 (AttestationData.BeaconBlockRoot data) in
  let epoch := SlotToEpoch cfg (AttestationData.Slot data) in
  heap s !! p = Some base ->
  BeaconCommitteeFromState base (AttestationData.Slot data)
    (AttestationData.CommitteeIndex data) = Ok committee ->
  VerifyIndexedAttestation base (ConvertToIndexed a committee) = Some err ->
  verifyAttestation cfg fc (Some p) a s = (s', evs, r) ->
  (err <> ErrSigFailedToVerify ->
     s' = s /\ evs = [] /\
     r = Err (Wrap err "could not verify indexed attestation" [])) /\
  (err = ErrSigFailedToVerify ->
     ((exists res, stateLoaded evs root res) \/
      (exists blks e, EvSaveBlocks blks (Some e) ∈ evs /\
         r = Err (Wrap e "could not save initial sync blocks" []))) /\
     (forall q st origSeed aSeed,
        stateLoaded evs root (Ok (Some q)) ->
        heap s !! q = Some st ->
        Seed base epoch (DomainBeaconAttester cfg) = Ok origSeed ->
        Seed st epoch (DomainBeaconAttester cfg) = Ok aSeed ->
        (origSeed <> aSeed ->
           r = Err (Errorf "could not verify indexed attestation due to differences in seeds: %v != %v"
                      [ArgBytes origSeed; ArgBytes aSeed])) /\
        (origSeed = aSeed ->
           r = Err (Wrap ErrSigFailedToVerify "could not verify indexed attestation" [])))).
Proof.
  intros data root epoch Hbase Hcommittee Hverify Hrun.
  subst data root epoch. unfold stateLoaded.
  unfold_run. rewrite Hbase in Hrun. simpl in Hrun.
  rewrite Hcommittee in Hrun. simpl in Hrun. rewrite Hverify in Hrun.
  split.
  - intros Hother.
    destruct err; try done; simpl in Hrun; simplify_eq; done.
  - intros ->. simpl in Hrun.
    repeat run_step Hrun.
    all: split;
      [ first [ left; eexists; first [ left; elem_here; fail | right; elem_here; fail ]
              | right; do 2 eexists; split; [elem_here|reflexivity] ] | ].
    all: intros q st origSeed aSeed [Hq|Hq] Hst Ho Ha; inv_elem; simplify_eq/=.
    all: repeat match goal with
         | H1 : ?x = Ok _, H2 : ?x = _ |- _ => rewrite H1 in H2; simplify_eq
         end.
    all: split; intros Hseed; try done.
    all: repeat match goal with
         | H : negb (bool_decide _) = true |- _ =>
             apply negb_true_iff, bool_decide_eq_false in H
         | H : negb (bool_decide _) = false |- _ =>
             apply negb_false_iff, bool_decide_eq_true in H
         end; done.
Qed.

End Properties.

(* ===================================================================== *)
(** ** The small host, run *)

(** The small host's [ProcessSlots] leaves a state at the slot asked for. *)
Lemma toy_processSlots_slot (w : Toy.state) (t : Z) (w' : Toy.state) :
  core_ProcessSlots w t = (w', None) -> state_Slot w' = t.
Proof.
  simpl. unfold Toy.processSlots. destruct (Toy.slot w <=? t); intros Heq.
  - injection Heq as <-. reflexivity.
  - discriminate Heq.
Qed.

(** C8 on the warm service: checkpoint [(1, R1)] is cached at address 0. *)
Lemma getAttPreState_cache_hit_witness :
  getAttPreState Toy.config Toy.newStateMgmt (Checkpoint.mk 1 Toy.R1) Toy.warmService =
    (Toy.warmService,
     [EvLock; EvStateByCheckpoint (Checkpoint.mk 1 Toy.R1) (Ok (Some 0%nat)); EvUnlock],
     Ok (Some 0%nat)).
Proof.
  apply (getAttPreState_cache_hit Toy.config Toy.newStateMgmt Toy.warmService
           (Checkpoint.mk 1 Toy.R1) 0%nat); reflexivity.
Defined.

(** C7 on checkpoint [(1, R1)]: the state the database holds at [R1] is at
    slot 32, the start of epoch 1; it is returned as it is and nothing is
    advanced. *)
Lemma getAttPreState_equal_slot_witness :
  (getAttPreState Toy.config Toy.legacy (Checkpoint.mk 1 Toy.R1) Toy.service).2 =
    Ok (Some 0%nat) /\
  (forall q t res,
     EvProcessSlots q t res ∉
       (getAttPreState Toy.config Toy.legacy (Checkpoint.mk 1 Toy.R1) Toy.service).1.2) /\
  heap (getAttPreState Toy.config Toy.legacy (Checkpoint.mk 1 Toy.R1) Toy.service).1.1
    !! 0%nat = Some (Toy.mkState 32 [xaa]) /\
  checkpointStateLock
    (getAttPreState Toy.config Toy.legacy (Checkpoint.mk 1 Toy.R1) Toy.service).1.1 = false.
Proof.
  apply (getAttPreState_equal_slot Toy.config Toy.legacy Toy.service
           (Checkpoint.mk 1 Toy.R1) 0%nat (Toy.mkState 32 [xaa])).
  - reflexivity.
  - reflexivity.
  - right. left. reflexivity.
  - reflexivity.
  - reflexivity.
  - reflexivity.
  - intros st. reflexivity.
Defined.

(** C6 on checkpoint [(2, R1)]: the state at [R1] (address 0, slot 32) is
    behind the start of epoch 2; its copy at address 3 is advanced to slot
    64, and address 0 still holds the state at slot 32. *)
Lemma getAttPreState_copy_before_advance_witness :
  EvCopy 0 3 ∈
    (getAttPreState Toy.config Toy.newStateMgmt (Checkpoint.mk 2 Toy.R1) Toy.service).1.2 /\
  EvProcessSlots 3 64 None ∈
    (getAttPreState Toy.config Toy.newStateMgmt (Checkpoint.mk 2 Toy.R1) Toy.service).1.2 /\
  heap (getAttPreState Toy.config Toy.newStateMgmt (Checkpoint.mk 2 Toy.R1) Toy.service).1.1
    !! 0%nat = Some (Toy.mkState 32 [xaa]) /\
  heap (getAttPreState Toy.config Toy.newStateMgmt (Checkpoint.mk 2 Toy.R1) Toy.service).1.1
    !! 3%nat = Some (Toy.mkState 64 [xaa]).
Proof.
  destruct (getAttPreState_copy_before_advance Toy.config Toy.newStateMgmt Toy.service
              (getAttPreState Toy.config Toy.newStateMgmt (Checkpoint.mk 2 Toy.R1) Toy.service).1.1
              (getAttPreState Toy.config Toy.newStateMgmt (Checkpoint.mk 2 Toy.R1) Toy.service).1.2
              (getAttPreState Toy.config Toy.newStateMgmt (Checkpoint.mk 2 Toy.R1) Toy.service).2
              (Checkpoint.mk 2 Toy.R1) 0%nat (Toy.mkState 32 [xaa]))
    as (Hcopy & _ & _ & Hheap & _).
  - reflexivity.
  - left. vm_compute. elem_here.
  - reflexivity.
  - vm_compute. reflexivity.
  - split; [exact Hcopy|]. split; [vm_compute; elem_here|].
    split; [exact Hheap|]. reflexivity.
Defined.

(** C1 as amended, on checkpoint [(2, R1)]: the state cached for it is the
    advanced copy at address 3, at slot [max(32, 64) = 64]. *)
Lemma getAttPreState_cached_state_slot_witness :
  Checkpoint.mk 2 Toy.R1 = Checkpoint.mk 2 Toy.R1 /\
  exists b w,
    Some 3%nat = Some b /\
    heap (getAttPreState Toy.config Toy.newStateMgmt (Checkpoint.mk 2 Toy.R1) Toy.service).1.1
      !! b = Some w /\
    state_Slot w = Z.max (state_Slot (Toy.mkState 32 [xaa])) (StartSlot Toy.config 2).
Proof.
  apply (getAttPreState_cached_state_slot Toy.config Toy.newStateMgmt Toy.service
           (getAttPreState Toy.config Toy.newStateMgmt (Checkpoint.mk 2 Toy.R1) Toy.service).1.1
           (getAttPreState Toy.config Toy.newStateMgmt (Checkpoint.mk 2 Toy.R1) Toy.service).1.2
           (getAttPreState Toy.config Toy.newStateMgmt (Checkpoint.mk 2 Toy.R1) Toy.service).2
           (Checkpoint.mk 2 Toy.R1) 0%nat (Toy.mkState 32 [xaa])
           toy_processSlots_slot) with (res := None).
  - reflexivity.
  - left. vm_compute. elem_here.
  - reflexivity.
  - vm_compute. elem_here.
Defined.

(** C1 as stated fails.  With NewStateMgmt, the state at [R2] is at slot 70,
    past the start (64) of epoch 2: it is cached as it is under [(2, R2)].
    With CheckHeadState, the head is [R2] and the head state is at slot 40:
    its copy is cached under [(2, R2)] without being advanced to 64. *)
Lemma getAttPreState_caches_state_off_epoch_start :
  StartSlot Toy.config 2 = 64 /\
  (exists s' evs r,
     getAttPreState Toy.config Toy.newStateMgmt (Checkpoint.mk 2 Toy.R2) Toy.service
       = (s', evs, r) /\
     EvAddCheckpointState (Checkpoint.mk 2 Toy.R2) (Some 1%nat) None ∈ evs /\
     Toy.slot <$> heap s' !! 1%nat = Some 70) /\
  (exists s' evs r,
     getAttPreState Toy.config Toy.checkHeadState (Checkpoint.mk 2 Toy.R2) Toy.service
       = (s', evs, r) /\
     EvAddCheckpointState (Checkpoint.mk 2 Toy.R2) (Some 3%nat) None ∈ evs /\
     Toy.slot <$> heap s' !! 3%nat = Some 40).
Proof.
  split; [reflexivity|]. split.
  - do 3 eexists. split; [vm_compute; reflexivity|]. split; [elem_here|reflexivity].
  - do 3 eexists. split; [vm_compute; reflexivity|]. split; [elem_here|reflexivity].
Qed.

(** C9 as amended, on checkpoint [(2, R1)]: the guard is free afterwards and
    the run starts with [Lock] and ends with [Unlock]. *)
Lemma getAttPreState_guard_scope_witness :
  checkpointStateLock
    (getAttPreState Toy.config Toy.newStateMgmt (Checkpoint.mk 2 Toy.R1) Toy.service).1.1
    = false /\
  head (getAttPreState Toy.config Toy.newStateMgmt (Checkpoint.mk 2 Toy.R1) Toy.service).1.2
    = Some EvLock /\
  last (getAttPreState Toy.config Toy.newStateMgmt (Checkpoint.mk 2 Toy.R1) Toy.service).1.2
    = Some EvUnlock.
Proof.
  destruct (getAttPreState_guard_scope Toy.config Toy.newStateMgmt Toy.service
              (Checkpoint.mk 2 Toy.R1)) as (_ & Hscope).
  destruct (Hscope eq_refl
              (getAttPreState Toy.config Toy.newStateMgmt (Checkpoint.mk 2 Toy.R1) Toy.service).1.1
              (getAttPreState Toy.config Toy.newStateMgmt (Checkpoint.mk 2 Toy.R1) Toy.service).1.2
              (getAttPreState Toy.config Toy.newStateMgmt (Checkpoint.mk 2 Toy.R1) Toy.service).2)
    as (Hfree & Hhead & Hlast & _).
  - reflexivity.
  - split; [exact Hfree|]. split; [exact Hhead|exact Hlast].
Defined.

(** C9 as stated fails: on a cache miss for checkpoint [(2, R1)] the
    state-generator read, the copy and [ProcessSlots] all happen with the
    guard held ([true]), between [Lock] and [Unlock]. *)
Lemma getAttPreState_guard_held_during_generation :
  guardTrace false
    (getAttPreState Toy.config Toy.newStateMgmt (Checkpoint.mk 2 Toy.R1) Toy.service).1.2 =
  [(EvLock, false);
   (EvStateByCheckpoint (Checkpoint.mk 2 Toy.R1) (Ok None), true);
   (EvHasState (ToBytes32 Toy.R1) true, true);
   (EvStateByRoot (ToBytes32 Toy.R1) (Ok (Some 0%nat)), true);
   (EvCopy 0 3, true);
   (EvProcessSlots 3 64 None, true);
   (EvAddCheckpointState (Checkpoint.mk 2 Toy.R1) (Some 3%nat) None, true);
   (EvUnlock, true)] /\
  isGeneration (EvStateByRoot (ToBytes32 Toy.R1) (Ok (Some 0%nat))) = true /\
  isGeneration (EvProcessSlots 3 64 None) = true.
Proof. split; [vm_compute; reflexivity|]. split; reflexivity. Qed.

(** C4 on the small host: the block at [R2] is at slot 70.  An attestation
    at slot 70 for it is accepted, one at slot 69 is refused, and a head
    [R1 ++ R2] that the database does not have is unknown. *)
Example verifyBeaconBlock_examples :
  (verifyBeaconBlock
     (AttestationData.mk 70 0 Toy.R2 (Checkpoint.mk 1 Toy.R1) (Checkpoint.mk 2 Toy.R1))
     Toy.service).2 = Ok tt /\
  (verifyBeaconBlock
     (AttestationData.mk 69 0 Toy.R2 (Checkpoint.mk 1 Toy.R1) (Checkpoint.mk 2 Toy.R1))
     Toy.service).2 =
    Err (Errorf "could not process attestation for future block, block.Slot=%d > attestation.Data.Slot=%d"
           [ArgUint 70; ArgUint 69]) /\
  (verifyBeaconBlock
     (AttestationData.mk 70 0 (Toy.R1 ++ Toy.R2) (Checkpoint.mk 1 Toy.R1) (Checkpoint.mk 2 Toy.R1))
     Toy.service).2 =
    Err (Errorf "beacon block %#x does not exist" [ArgBytes (Toy.R1 ++ Toy.R2)]).
Proof. repeat split; vm_compute; reflexivity. Qed.

(** C5 on the small host: the ancestor of [R2] is [R1], so the votes
    [(2, R1)] and [R2] are consistent. *)
Lemma verifyLMDFFGConsistent_iff_witness :
  (verifyLMDFFGConsistent Toy.config 2 Toy.R1 Toy.R2 Toy.service).2 = Ok tt.
Proof.
  destruct (verifyLMDFFGConsistent_iff Toy.config Toy.service 2 Toy.R1 Toy.R2 Toy.R1)
    as (_ & Hok & _).
  - reflexivity.
  - apply Hok. reflexivity.
Defined.

(** C5, the other way: [(2, R2)] and [R2] are not consistent. *)
Example verifyLMDFFGConsistent_mismatch :
  (verifyLMDFFGConsistent Toy.config 2 Toy.R2 Toy.R2 Toy.service).2 =
    Err (Errorf "FFG and LMD votes are not consistent" []).
Proof. vm_compute. reflexivity. Qed.

(** C2 on the small host, database path: the signature [[x02]] fails to
    verify; the pre-state (address 0) has mix [aa], the state the database
    holds for the head [R2] (address 2) has mix [bb]; the seeds differ. *)
Lemma verifyAttestation_seed_reconciliation_witness :
  (verifyAttestation Toy.config Toy.legacy (Some 0%nat) (Toy.attestation [x02]) Toy.service).2 =
    Err (Errorf "could not verify indexed attestation due to differences in seeds: %v != %v"
           [ArgBytes [xaa]; ArgBytes [xbb]]).
Proof.
  destruct (verifyAttestation_seed_reconciliation Toy.config Toy.legacy Toy.service
              (verifyAttestation Toy.config Toy.legacy (Some 0%nat) (Toy.attestation [x02])
                 Toy.service).1.1
              (verifyAttestation Toy.config Toy.legacy (Some 0%nat) (Toy.attestation [x02])
                 Toy.service).1.2
              (verifyAttestation Toy.config Toy.legacy (Some 0%nat) (Toy.attestation [x02])
                 Toy.service).2
              0%nat (Toy.attestation [x02]) (Toy.mkState 32 [xaa]) [5; 11]
              ErrSigFailedToVerify)
    as (_ & Hsig).
  - reflexivity.
  - reflexivity.
  - reflexivity.
  - reflexivity.
  - destruct (Hsig eq_refl) as (_ & Hseeds).
    destruct (Hseeds 2%nat (Toy.mkState 40 [xbb]) [xaa] [xbb]) as (Hdiff & _).
    + right. vm_compute. elem_here.
    + reflexivity.
    + reflexivity.
    + reflexivity.
    + apply Hdiff. discriminate.
Defined.

(** C2, state-generator path: the state the generator holds for [R2]
    (address 1) has mix [aa] like the pre-state, so the signature failure
    stands; and a malformed (empty) signature is returned without any
    reconciliation. *)
Example verifyAttestation_examples :
  (verifyAttestation Toy.config Toy.newStateMgmt (Some 0%nat) (Toy.attestation [x02])
     Toy.service).2 =
    Err (Wrap ErrSigFailedToVerify "could not verify indexed attestation" []) /\
  verifyAttestation Toy.config Toy.newStateMgmt (Some 0%nat) (Toy.attestation [])
     Toy.service =
    (Toy.service, [], Err (Wrap (ErrOther 3) "could not verify indexed attestation" [])) /\
  (verifyAttestation Toy.config Toy.newStateMgmt (Some 0%nat) (Toy.attestation [x01])
     Toy.service).2 =
    Ok (IndexedAttestation.mk [5; 11] (Attestation.Data (Toy.attestation [x01])) [x01]).
Proof. repeat split; vm_compute; reflexivity. Qed.

(* ===================================================================== *)
(** * Further properties *)

(** ** [getAttPreState], on every run *)

Section MoreProperties.

Context {BeaconState Store Cache : Type} `{!Host BeaconState Store Cache}.

Variable cfg : BeaconChainConfig.
Variable fc : Flags.

(** X1. [getAttPreState] never changes a state that existed before the
    call, whatever the flags, the path and the result: every address that
    held a value still holds that value afterwards. *)
Theorem getAttPreState_preserves_states (s : @Service BeaconState Store Cache) c q v :
  heap s !! q = Some v ->
  heap (getAttPreState cfg fc c s).1.1 !! q = Some v.
Proof.
  intros Hq.
  destruct (getAttPreState cfg fc c s) as [[s' evs] r] eqn:Hrun. simpl.
  run_all Hrun.
  all: eauto using lookup_snoc_old.
Qed.

(** X2. The effect of [getAttPreState] on the cache, on every run, is one of
    three: a hit (the cached state is returned, nothing inserted, cache
    untouched); exactly one [AddCheckpointState] call, under the key [c],
    after which the call succeeds iff the insertion did and otherwise returns
    the insertion's error wrapped; or no insertion at all, the cache
    untouched and no state returned.  So a freshly resolved state is never
    returned without having been cached, and a failed resolution leaves the
    cache as it was. *)
Theorem getAttPreState_cache_effect (s : @Service BeaconState Store Cache) c :
  let run := getAttPreState cfg fc c s in
  (exists a, cache_StateByCheckpoint (checkpointState s) c = Ok (Some a) /\
     run.2 = Ok (Some a) /\ cacheInsertions run.1.2 = [] /\
     checkpointState run.1.1 = checkpointState s) \/
  (exists st res, cacheInsertions run.1.2 = [(c, st, res)] /\
     cache_AddCheckpointState (checkpointState s) c st = (checkpointState run.1.1, res) /\
     match res with
     | None => exists a, run.2 = Ok (Some a)
     | Some e => run.2 = Err (Wrap e "could not saved checkpoint state to cache" [])
     end) \/
  (cacheInsertions run.1.2 = [] /\ checkpointState run.1.1 = checkpointState s /\
     forall p, run.2 <> Ok p).
Proof.
  intros run. subst run.
  destruct (getAttPreState cfg fc c s) as [[s' evs] r] eqn:Hrun. simpl.
  run_all Hrun.
  all: first
    [ left; eexists; repeat split; reflexivity
    | right; right; repeat split; done
    | right; left; do 2 eexists; split; [reflexivity|]; split; [eassumption|]; eauto ].
Qed.

(** X3. When [getAttPreState] resolves a state and caches it, the cached
    object and the returned object hold the same value.  With NewStateMgmt
    they are the same object (the caller's pointer aliases the cache
    entry); on the other paths the cached object is a fresh copy, distinct
    from the returned one and from every state that existed before. *)
Theorem getAttPreState_cached_copy (s s' : @Service BeaconState Store Cache) evs c p st :
  getAttPreState cfg fc c s = (s', evs, Ok p) ->
  EvAddCheckpointState c st None ∈ evs ->
  exists a q w,
    p = Some a /\ st = Some q /\
    heap s' !! a = Some w /\ heap s' !! q = Some w /\
    if NewStateMgmt fc then q = a
    else q <> a /\ (length (heap s) <= q)%nat /\ heap s !! q = None.
Proof.
  intros Hrun Hin.
  run_all Hrun.
  all: inv_elem; simplify_eq/=.
  all: do 3 eexists; split; [reflexivity|]; split; [reflexivity|].
  all: repeat match goal with
       | H : _ !! _ = Some _ |- _ =>
           lazymatch goal with
           | H' : (_ < length _)%nat |- _ => fail
           | _ => pose proof (lookup_lt_Some _ _ _ H)
           end
       end.
  all: split; [first [ apply lookup_snoc_fresh | eassumption
                     | apply lookup_snoc_old; first [apply lookup_snoc_fresh | eassumption] ]|].
  all: split; [first [ apply lookup_snoc_fresh | eassumption
                     | apply lookup_snoc_old; first [apply lookup_snoc_fresh | eassumption] ]|].
  all: try reflexivity.
  all: rewrite ?length_app; simpl; repeat split; try lia.
  all: try (apply lookup_ge_None; rewrite ?length_app; simpl; lia).
Qed.

(** X4. [getAttPreState] empties the initial-sync buffer only after
    [SaveBlocks] has accepted exactly the blocks of the buffer, and only
    with NewStateMgmt when the state generator lacks the root; when
    [SaveBlocks] fails the buffer is kept and the error is returned wrapped. *)
Theorem getAttPreState_flush_after_save (s : @Service BeaconState Store Cache) c :
  let run := getAttPreState cfg fc c s in
  let root := ToBytes32 (Checkpoint.Root c) in
  (initSyncBlocks run.1.1 = initSyncBlocks s /\ EvClearInitSyncBlocks ∉ run.1.2 \/
   initSyncBlocks run.1.1 = [] /\ NewStateMgmt fc = true /\
     EvHasState root false ∈ run.1.2 /\
     EvSaveBlocks (initSyncBlocks s) None ∈ run.1.2) /\
  (forall blks e, EvSaveBlocks blks (Some e) ∈ run.1.2 ->
     blks = initSyncBlocks s /\
     initSyncBlocks run.1.1 = initSyncBlocks s /\
     run.2 = Err (Wrap e "could not save initial sync blocks" [])).
Proof.
  intros run root. subst run root.
  destruct (getAttPreState cfg fc c s) as [[s' evs] r] eqn:Hrun. simpl.
  run_all Hrun.
  all: repeat match goal with
       | H : negb _ = true |- _ => apply negb_true_iff in H; rewrite ?H
       end.
  all: split; [|intros blks err0 Hin; inv_elem; simplify_eq/=; done].
  all: first [ left; split; [reflexivity|]; intros Hin; inv_elem; fail
             | right; repeat split; try done; elem_here ].
Qed.

(** X5. The two state sources never mix.  With NewStateMgmt the head
    accessors and the database's states are never consulted (CheckHeadState
    is ignored); without it the state generator and the initial-sync flush
    are never touched and the store and the buffer are left as they were;
    without CheckHeadState the head is never read. *)
Theorem getAttPreState_flag_paths (s : @Service BeaconState Store Cache) c :
  let run := getAttPreState cfg fc c s in
  (NewStateMgmt fc = true ->
     forall e, e ∈ run.1.2 -> isHeadOrDatabaseEvent e = false) /\
  (NewStateMgmt fc = false ->
     (forall e, e ∈ run.1.2 -> isStateGenEvent e = false) /\
     store run.1.1 = store s /\ initSyncBlocks run.1.1 = initSyncBlocks s) /\
  (CheckHeadState fc = false ->
     (forall res, EvHeadRoot res ∉ run.1.2) /\ (forall res, EvHeadState res ∉ run.1.2)).
Proof.
  intros run. subst run.
  destruct (getAttPreState cfg fc c s) as [[s' evs] r] eqn:Hrun. simpl.
  run_all Hrun.
  all: split;
    [intros Hf e' Hin; first [discriminate Hf | inv_elem; simplify_eq/=; reflexivity]|].
  all: split;
    [intros Hf; first
       [ discriminate Hf
       | split; [intros e' Hin; inv_elem; simplify_eq/=; reflexivity|split; reflexivity] ]|].
  all: intros Hh; first [discriminate Hh | split; intros res Hin; inv_elem].
Qed.

(** X6. Whenever [getAttPreState] asks for the head state, the head root
    equalled the checkpoint's root, the database is not read and nothing is
    advanced; if the call returns a state, it is the head state object
    itself, unchanged whatever its slot, and a fresh copy of it is what was
    cached under [c]. *)
Theorem getAttPreState_head_state_shortcut
    (s s' : @Service BeaconState Store Cache) evs r c res :
  getAttPreState cfg fc c s = (s', evs, r) ->
  EvHeadState res ∈ evs ->
  EvHeadRoot (Ok (Checkpoint.Root c)) ∈ evs /\
  (forall root o, EvState root o ∉ evs) /\
  (forall q t o, EvProcessSlots q t o ∉ evs) /\
  (forall p, r = Ok p ->
     res = Ok p /\
     exists h v, p = Some h /\ heap s !! h = Some v /\ heap s' !! h = Some v /\
       cacheInsertions evs = [(c, Some (length (heap s)), None)] /\
       heap s' !! length (heap s) = Some v).
Proof.
  intros Hrun Hin.
  run_all Hrun.
  all: inv_elem; simplify_eq/=.
  all: repeat match goal with
       | H : bool_decide _ = true |- _ => apply bool_decide_eq_true in H; subst
       end.
  all: split; [elem_here|].
  all: split; [intros root o Hin; inv_elem|].
  all: split; [intros q t o Hin; inv_elem|].
  all: intros p Hp; simplify_eq/=.
  all: split; [reflexivity|].
  all: do 2 eexists; split; [reflexivity|]; split; [eassumption|].
  all: split; [eauto using lookup_snoc_old|].
  all: split; [reflexivity|apply lookup_snoc_fresh].
Qed.

(** X7. When the base state cannot be had, [getAttPreState] fails and
    caches nothing: a database that answers [nil] gives the
    pre-state-does-not-exist error, an error of the state generator or of the
    database is returned wrapped with the target's start slot, and in both
    cases the cache and the heap are as before. *)
Theorem getAttPreState_base_state_unavailable
    (s s' : @Service BeaconState Store Cache) evs r c :
  getAttPreState cfg fc c s = (s', evs, r) ->
  let root := ToBytes32 (Checkpoint.Root c) in
  let startSlot := StartSlot cfg (Checkpoint.Epoch c) in
  (EvState root (Ok None) ∈ evs ->
     r = Err (Errorf "pre state of target block %d does not exist" [ArgUint startSlot])) /\
  (forall e, stateLoaded evs root (Err e) ->
     r = Err (Wrap e "could not get pre state for slot %d" [ArgUint startSlot])) /\
  ((EvState root (Ok None) ∈ evs \/ exists e, stateLoaded evs root (Err e)) ->
     cacheInsertions evs = [] /\ checkpointState s' = checkpointState s /\
     heap s' = heap s).
Proof.
  intros Hrun root startSlot. subst root startSlot. unfold stateLoaded.
  run_all Hrun.
  all: split; [intros Hin; inv_elem; simplify_eq/=; reflexivity|].
  all: split; [intros e' [Hin|Hin]; inv_elem; simplify_eq/=; reflexivity|].
  all: intros [Hin|[e' [Hin|Hin]]]; inv_elem; simplify_eq/=; done.
Qed.

(** X8. Miss, then hit.  If the cache answers a lookup with what was last
    inserted under that key, then after a call that resolved and cached the
    pre-state of [c], a second call for [c] is a pure cache hit: it consists
    of [Lock], the lookup and [Unlock], changes nothing, and returns the
    cached state, whose value is that of the state the first call returned. *)
Theorem getAttPreState_second_call_hits
    (s s' : @Service BeaconState Store Cache) evs c p st :
  (forall C k x C', cache_AddCheckpointState C k x = (C', None) ->
                    cache_StateByCheckpoint C' k = Ok x) ->
  getAttPreState cfg fc c s = (s', evs, Ok p) ->
  EvAddCheckpointState c st None ∈ evs ->
  getAttPreState cfg fc c s' =
    (s', [EvLock; EvStateByCheckpoint c (Ok st); EvUnlock], Ok st) /\
  exists a q w, p = Some a /\ st = Some q /\
    heap s' !! a = Some w /\ heap s' !! q = Some w.
Proof.
  intros Hlaw Hrun Hin.
  assert (Hhit : checkpointStateLock s' = false /\
                 exists q, st = Some q /\
                   cache_StateByCheckpoint (checkpointState s') c = Ok (Some q)).
  { clear -Hlaw Hrun Hin. run_all Hrun.
    all: inv_elem; simplify_eq/=.
    all: split; [reflexivity|]; eexists; split; [reflexivity|].
    all: eapply Hlaw; eassumption. }
  destruct Hhit as (Hfree & q & -> & Hget).
  split.
  - clear Hrun Hin. unfold_run. rewrite Hfree. simpl. rewrite Hget. simpl.
    destruct s'; simpl in *; subst; reflexivity.
  - clear Hget Hfree Hlaw. run_all Hrun.
    all: inv_elem; simplify_eq/=.
    all: do 3 eexists; split; [reflexivity|]; split; [reflexivity|].
    all: split; first [ apply lookup_snoc_fresh | eassumption
                     | apply lookup_snoc_old; first [apply lookup_snoc_fresh | eassumption] ].
Qed.

(** ** [verifyAttestation], [verifyBeaconBlock], [verifyLMDFFGConsistent] *)

(** X9. [verifyAttestation] returns an indexed attestation only when the
    indexed-attestation verification passed: the result is then the
    conversion of the attestation with the committee of the pre-state, it
    verifies against the pre-state, and the run made no call and changed
    nothing.  In particular the seed reconciliation never turns a failure
    into a success. *)
Theorem verifyAttestation_sound
    (s s' : @Service BeaconState Store Cache) evs baseState a indexedAtt :
  verifyAttestation cfg fc baseState a s = (s', evs, Ok indexedAtt) ->
  s' = s /\ evs = [] /\
  exists p base committee,
    baseState = Some p /\ heap s !! p = Some base /\
    BeaconCommitteeFromState base (AttestationData.Slot (Attestation.Data a))
      (AttestationData.CommitteeIndex (Attestation.Data a)) = Ok committee /\
    indexedAtt = ConvertToIndexed a committee /\
    VerifyIndexedAttestation base indexedAtt = None.
Proof.
  intros Hrun.
  run_all Hrun.
  split; [reflexivity|]. split; [reflexivity|].
  do 3 eexists. repeat split; eassumption.
Qed.

(** X10. [verifyAttestation] never touches the state objects, the cache or
    its guard.  Without NewStateMgmt it leaves the store and the
    initial-sync buffer alone too; with it, the buffer is emptied only after
    [SaveBlocks] accepted exactly its blocks, and a failing [SaveBlocks]
    keeps the buffer and is returned wrapped. *)
Theorem verifyAttestation_frame (s : @Service BeaconState Store Cache) baseState a :
  let run := verifyAttestation cfg fc baseState a s in
  let root := ToBytes32 (AttestationData.BeaconBlockRoot (Attestation.Data a)) in
  heap run.1.1 = heap s /\
  checkpointState run.1.1 = checkpointState s /\
  checkpointStateLock run.1.1 = checkpointStateLock s /\
  (NewStateMgmt fc = false ->
     store run.1.1 = store s /\ initSyncBlocks run.1.1 = initSyncBlocks s) /\
  (initSyncBlocks run.1.1 = initSyncBlocks s /\ EvClearInitSyncBlocks ∉ run.1.2 \/
   initSyncBlocks run.1.1 = [] /\
     EvHasState root false ∈ run.1.2 /\
     EvSaveBlocks (initSyncBlocks s) None ∈ run.1.2) /\
  (forall blks e, EvSaveBlocks blks (Some e) ∈ run.1.2 ->
     blks = initSyncBlocks s /\
     initSyncBlocks run.1.1 = initSyncBlocks s /\
     run.2 = Err (Wrap e "could not save initial sync blocks" [])).
Proof.
  intros run root. subst run root.
  destruct (verifyAttestation cfg fc baseState a s) as [[s' evs] r] eqn:Hrun. simpl.
  run_all Hrun.
  all: repeat match goal with
       | H : negb _ = true |- _ => apply negb_true_iff in H; rewrite ?H
       end.
  all: split; [reflexivity|]. all: split; [reflexivity|]. all: split; [reflexivity|].
  all: split; [intros Hf; first [discriminate Hf | split; reflexivity]|].
  all: split; [|intros blks err0 Hin; inv_elem; simplify_eq/=; done].
  all: first [ left; split; [reflexivity|]; intros Hin; inv_elem; fail
             | right; repeat split; try done; elem_here ].
Qed.

(** X11. In the seed reconciliation, a head state that cannot be had ends
    the call: a [nil] state gives the nil-state error naming the
    attestation's [beacon_block_root], and an error of the state generator or
    of the database is returned as it is, unwrapped. *)
Theorem verifyAttestation_head_state_unavailable
    (s s' : @Service BeaconState Store Cache) evs r baseState a :
  verifyAttestation cfg fc baseState a s = (s', evs, r) ->
  let root := ToBytes32 (AttestationData.BeaconBlockRoot (Attestation.Data a)) in
  (stateLoaded evs root (Ok None) ->
     r = Err (Errorf "nil state for block root %#x"
                [ArgBytes (AttestationData.BeaconBlockRoot (Attestation.Data a))])) /\
  (forall e, stateLoaded evs root (Err e) -> r = Err e).
Proof.
  intros Hrun root. subst root. unfold stateLoaded.
  run_all Hrun.
  all: split; [intros [Hin|Hin]; inv_elem; simplify_eq/=; reflexivity|].
  all: intros e' [Hin|Hin]; inv_elem; simplify_eq/=; reflexivity.
Qed.

(** X12. [verifyBeaconBlock] reads the database once and changes nothing;
    it succeeds only if the database holds a block with a body at the
    attestation's [beacon_block_root] whose slot is at most the attestation's
    slot, and a database error is returned as it is. *)
Theorem verifyBeaconBlock_sound (s : @Service BeaconState Store Cache) data :
  let root := ToBytes32 (AttestationData.BeaconBlockRoot data) in
  let found := beaconDB_Block (store s) root in
  let run := verifyBeaconBlock data s in
  run.1 = (s, [EvBlock root found]) /\
  (run.2 = Ok tt ->
     exists b blk, found = Ok (Some b) /\ SignedBeaconBlock.Block b = Some blk /\
       BeaconBlock.Slot blk <= AttestationData.Slot data) /\
  (forall e, found = Err e -> run.2 = Err e).
Proof.
  intros root found run. subst root found run.
  destruct (verifyBeaconBlock data s) as [[s' evs] r] eqn:Hrun. simpl.
  run_all Hrun.
  all: split; [reflexivity|]; split; [intros Hr; simplify_eq|intros e' He; simplify_eq; done].
  destruct a; simpl in *; [|done].
  do 2 eexists. split; [reflexivity|]. split; [eassumption|].
  rewrite Z.gtb_ltb in Heqb. apply Z.ltb_ge. assumption.
Qed.

(** X13. [verifyLMDFFGConsistent] asks the ancestor oracle once, at slot
    [ffgEpoch * SLOTS_PER_EPOCH] reduced modulo [2^64], and changes nothing;
    it succeeds only if the oracle answered with [ffgRoot], and an error of
    the oracle is returned as it is. *)
Theorem verifyLMDFFGConsistent_sound
    (s : @Service BeaconState Store Cache) ffgEpoch ffgRoot lmdRoot :
  let ffgSlot := (ffgEpoch * SlotsPerEpoch cfg) mod 2 ^ 64 in
  let found := service_ancestor (store s) lmdRoot ffgSlot in
  let run := verifyLMDFFGConsistent cfg ffgEpoch ffgRoot lmdRoot s in
  run.1 = (s, [EvAncestor lmdRoot ffgSlot found]) /\
  (run.2 = Ok tt -> found = Ok ffgRoot) /\
  (forall e, found = Err e -> run.2 = Err e).
Proof.
  intros ffgSlot found run. subst found run.
  change ffgSlot with (StartSlot cfg ffgEpoch). clear ffgSlot.
  destruct (verifyLMDFFGConsistent cfg ffgEpoch ffgRoot lmdRoot s) as [[s' evs] r] eqn:Hrun.
  simpl. run_all Hrun.
  all: split; [reflexivity|]; split; [intros Hr; simplify_eq|intros e' He; simplify_eq; done].
  apply negb_false_iff, bool_decide_eq_true in Heqb. by subst.
Qed.

End MoreProperties.

(** ** The acceptance window of [verifyAttTargetEpoch] *)

(** X14. With the clock at or after genesis, [verifyAttTargetEpoch] accepts
    a target epoch [e] exactly while the clock is in the two-epoch window
    that starts with [e]:
    [genesis + e * T <= now < genesis + (e + 2) * T] for
    [T = SECONDS_PER_SLOT * SLOTS_PER_EPOCH]. *)
Theorem verifyAttTargetEpoch_window cfg genesisTime nowTime c :
  config_ok cfg ->
  U64.in_range genesisTime -> U64.in_range nowTime ->
  genesisTime <= nowTime ->
  0 <= Checkpoint.Epoch c ->
  let epochSeconds := SecondsPerSlot cfg * SlotsPerEpoch cfg in
  verifyAttTargetEpoch cfg genesisTime nowTime c = None <->
  genesisTime + Checkpoint.Epoch c * epochSeconds <= nowTime
    < genesisTime + (Checkpoint.Epoch c + 2) * epochSeconds.
Proof.
  intros Hcfg Hg Hn Hle Hc epochSeconds.
  rewrite (verifyAttTargetEpoch_None_iff cfg genesisTime nowTime c Hcfg). cbv zeta.
  rewrite u64_sub_no_wrap by done.
  destruct Hcfg as [Hs He].
  assert (Hpos : 0 < epochSeconds) by (apply Z.mul_pos_pos; lia).
  rewrite Z.div_div by lia. fold epochSeconds.
  set (d := nowTime - genesisTime).
  assert (Hd : 0 <= d) by (unfold d; lia).
  pose proof (Z.div_mod d epochSeconds ltac:(lia)) as Hdm.
  pose proof (Z.mod_pos_bound d epochSeconds Hpos) as Hmod.
  set (cur := d / epochSeconds) in *.
  assert (Hcur : 0 <= cur) by (apply Z.div_pos; lia).
  case_decide; split.
  - intros [->| ->]; unfold d in *; nia.
  - intros [H1 H2].
    assert (Checkpoint.Epoch c <= cur) by (unfold d in *; nia).
    assert (cur < Checkpoint.Epoch c + 2) by (unfold d in *; nia).
    lia.
  - intros [->| ->]; unfold d in *; nia.
  - intros [H1 H2].
    assert (Checkpoint.Epoch c <= cur) by (unfold d in *; nia).
    assert (cur < Checkpoint.Epoch c + 2) by (unfold d in *; nia).
    lia.
Qed.

(** X15. For a target epoch that [verifyAttTargetEpoch] accepts (clock at or
    after genesis), the start slot [getAttPreState] and
    [verifyLMDFFGConsistent] compute does not overflow: it is
    [epoch * SLOTS_PER_EPOCH] exactly, it is not after the current slot, and
    it lies in the target epoch. *)
Theorem accepted_target_start_slot cfg genesisTime nowTime c :
  config_ok cfg ->
  U64.in_range genesisTime -> U64.in_range nowTime ->
  genesisTime <= nowTime ->
  0 <= Checkpoint.Epoch c ->
  verifyAttTargetEpoch cfg genesisTime nowTime c = None ->
  StartSlot cfg (Checkpoint.Epoch c) = Checkpoint.Epoch c * SlotsPerEpoch cfg /\
  StartSlot cfg (Checkpoint.Epoch c) <= (nowTime - genesisTime) / SecondsPerSlot cfg /\
  SlotToEpoch cfg (StartSlot cfg (Checkpoint.Epoch c)) = Checkpoint.Epoch c.
Proof.
  intros Hcfg Hg Hn Hle Hc Hok.
  apply (verifyAttTargetEpoch_None_iff cfg genesisTime nowTime c Hcfg) in Hok.
  cbv zeta in Hok. rewrite u64_sub_no_wrap in Hok by done.
  destruct Hcfg as [Hs He].
  set (slot := (nowTime - genesisTime) / SecondsPerSlot cfg) in *.
  assert (Hslot : U64.in_range slot).
  { apply (u64_div_in_range (nowTime - genesisTime) (SecondsPerSlot cfg)); [|lia].
    unfold U64.in_range in *. lia. }
  unfold U64.in_range in Hslot.
  pose proof (Z.div_mod slot (SlotsPerEpoch cfg) ltac:(lia)) as Hdm.
  pose proof (Z.mod_pos_bound slot (SlotsPerEpoch cfg) ltac:(lia)) as Hmod.
  set (cur := slot / SlotsPerEpoch cfg) in *.
  assert (Hcur : 0 <= cur) by (apply Z.div_pos; lia).
  assert (Hle' : Checkpoint.Epoch c <= cur).
  { destruct Hok as [Hok|Hok]; [|lia]. case_decide; lia. }
  assert (Hbound : Checkpoint.Epoch c * SlotsPerEpoch cfg <= slot).
  { apply Z.le_trans with (cur * SlotsPerEpoch cfg); [|lia].
    apply Z.mul_le_mono_nonneg_r; lia. }
  assert (Hstart : StartSlot cfg (Checkpoint.Epoch c) = Checkpoint.Epoch c * SlotsPerEpoch cfg).
  { unfold StartSlot, U64.mul. apply Z.mod_small.
    split; [apply Z.mul_nonneg_nonneg; lia|lia]. }
  rewrite Hstart. split; [reflexivity|]. split; [exact Hbound|].
  unfold SlotToEpoch, U64.div. apply Z.div_mul. lia.
Qed.

(** ** The slasher's entry point *)

(** Membership in an explicit list of slasher events. *)
Ltac inv_elem' :=
  repeat match goal with
  | H : _ ∈ [] |- _ => apply elem_of_nil in H; destruct H
  | H : _ ∈ _ :: _ |- _ =>
      apply elem_of_cons in H; destruct H as [H|H]; [try discriminate H|]
  end.

Section SlasherProperties.

Variable names : Slasher.FlagNames.
Variable env : Slasher.Env.

(** The first block of [Before] makes at most the one call that loads the
    file. *)
Lemma loadFlagsFromFile_events ctx ctx1 evs0 r :
  Slasher.loadFlagsFromFile names env ctx = (ctx1, evs0, r) ->
  forall e, e ∈ evs0 -> e = Slasher.EvInitInputSource r.
Proof.
  unfold Slasher.loadFlagsFromFile. intros Hload e He.
  destruct (Slasher.Context.IsSet ctx _).
  - destruct (Slasher.InitInputSource env ctx) as [ctx' res]. simplify_eq.
    inv_elem'. done.
  - simplify_eq. inv_elem'.
Qed.

(** X16. [Before] refuses a log format other than [text], [fluentd] and
    [json] (read after any flags were loaded from file) with the
    unknown-log-format error naming it, and does nothing else: no formatter
    is installed, no log file opened, [debug.Setup] not called. *)
Theorem Before_unknown_log_format ctx ctx1 evs0 :
  Slasher.loadFlagsFromFile names env ctx = (ctx1, evs0, None) ->
  let format := Slasher.Context.String ctx1 (Slasher.LogFormat names) in
  format <> "text"%string -> format <> "fluentd"%string -> format <> "json"%string ->
  Slasher.Before names env ctx =
    (evs0, Some (Slasher.Errorf "unknown log format %s" [format])).
Proof.
  intros Hload format Ht Hf Hj.
  unfold Slasher.Before. rewrite Hload. fold format.
  unfold Slasher.formatterFor.
  apply String.eqb_neq in Ht, Hf, Hj. rewrite Ht, Hf, Hj. reflexivity.
Qed.

(** The paths of [Before] past the configuration file. *)
Ltac before_cases Hload Hevs0 :=
  unfold Slasher.Before in *; rewrite Hload in *;
  unfold Slasher.formatterFor in *;
  repeat match goal with
  | |- context [if ?b then _ else _] => destruct b eqn:?
  | H : context [if ?b then _ else _] |- _ => destruct b eqn:?
  | |- context [match Slasher.ConfigurePersistentLogging ?e ?n with _ => _ end] =>
      destruct (Slasher.ConfigurePersistentLogging e n) eqn:?
  | H : context [match Slasher.ConfigurePersistentLogging ?e ?n with _ => _ end] |- _ =>
      destruct (Slasher.ConfigurePersistentLogging e n) eqn:?
  end; simpl in *.

Ltac in_app_cases Hevs0 :=
  repeat match goal with
  | H : _ ∈ _ ++ _ |- _ =>
      apply elem_of_app in H; destruct H as [H|H]; [apply Hevs0 in H; try discriminate H|]
  | H : _ ∈ ?l |- _ => is_var l; apply Hevs0 in H; try discriminate H
  end; inv_elem'.

Ltac in_app_here :=
  apply elem_of_app; right;
  repeat first [ apply elem_of_cons; left; reflexivity | apply elem_of_cons; right ].

(** X17. [Before] succeeds only through [debug.Setup]: whenever
    [debug.Setup] is called its result is the result of [Before], and by then
    a formatter is installed and GOMAXPROCS is set to the number of CPUs;
    whenever it is not called, [Before] failed and touched neither the
    formatter, nor GOMAXPROCS, nor the log file. *)
Theorem Before_succeeds_through_debug_setup ctx :
  let run := Slasher.Before names env ctx in
  (forall res, Slasher.EvDebugSetup res ∈ run.1 ->
     run.2 = res /\
     Slasher.EvGOMAXPROCS (Slasher.NumCPU env) ∈ run.1 /\
     exists f, Slasher.EvSetFormatter f ∈ run.1) /\
  ((forall res, Slasher.EvDebugSetup res ∉ run.1) ->
     run.2 <> None /\
     (forall f, Slasher.EvSetFormatter f ∉ run.1) /\
     (forall n, Slasher.EvGOMAXPROCS n ∉ run.1) /\
     (forall f res, Slasher.EvConfigurePersistentLogging f res ∉ run.1)).
Proof.
  intros run. subst run.
  destruct (Slasher.loadFlagsFromFile names env ctx) as [[ctx1 evs0] r0] eqn:Hload.
  pose proof (loadFlagsFromFile_events ctx ctx1 evs0 r0 Hload) as Hevs0.
  destruct r0 as [err|].
  - unfold Slasher.Before. rewrite Hload. simpl. split.
    + intros res Hin. apply Hevs0 in Hin. discriminate.
    + intros _. split; [done|].
      repeat split; intros * Hin; apply Hevs0 in Hin; discriminate.
  - before_cases Hload Hevs0.
    all: split;
      [ intros res Hin; in_app_cases Hevs0; simplify_eq;
        try (split; [reflexivity|]; split; [in_app_here|eexists; in_app_here])
      | intros Hno ].
    all: try (exfalso; eapply Hno; in_app_here).
    split; [done|].
    repeat split; intros * Hin; apply Hevs0 in Hin; discriminate.
Qed.

(** X18. The formatter [Before] installs follows the flags: [fluentd] and
    [json] give their formatters, and [text] gives a text formatter with
    full timestamps in the layout [2006-01-02 15:04:05] whose colours are
    disabled exactly when a log file name is given, that is exactly when
    [Before] goes on to configure logging to that file. *)
Theorem Before_formatter_follows_flags ctx ctx1 evs0 f :
  Slasher.loadFlagsFromFile names env ctx = (ctx1, evs0, None) ->
  Slasher.EvSetFormatter f ∈ (Slasher.Before names env ctx).1 ->
  let format := Slasher.Context.String ctx1 (Slasher.LogFormat names) in
  let logFileName := Slasher.Context.String ctx1 (Slasher.LogFileName names) in
  (format = "text"%string /\
     exists colorsOff, f = Slasher.TextFormatter "2006-01-02 15:04:05" true colorsOff /\
       (colorsOff = true <-> logFileName <> ""%string) /\
       (colorsOff = true <->
          exists res, Slasher.EvConfigurePersistentLogging logFileName res
                        ∈ (Slasher.Before names env ctx).1)) \/
  (format = "fluentd"%string /\ f = Slasher.FluentdFormatter) \/
  (format = "json"%string /\ f = Slasher.JSONFormatter).
Proof.
  intros Hload Hin format logFileName. subst format logFileName.
  pose proof (loadFlagsFromFile_events ctx ctx1 evs0 None Hload) as Hevs0.
  before_cases Hload Hevs0.
  all: in_app_cases Hevs0; simplify_eq.
  all: repeat match goal with
       | H : (_ =? _)%string = true |- _ => apply String.eqb_eq in H
       | H : negb (_ =? _)%string = true |- _ => apply negb_true_iff, String.eqb_neq in H
       | H : negb (_ =? _)%string = false |- _ => apply negb_false_iff, String.eqb_eq in H
       end.
  all: try (right; left; split; [assumption|reflexivity]).
  all: try (right; right; split; [assumption|reflexivity]).
  all: left; split; [assumption|]; eexists; split; [reflexivity|].
  all: split; split; try done.
  all: try (intros _; eexists; in_app_here).
  all: intros [res Hin]; in_app_cases Hevs0.
Qed.

(** X19. A failure to set up logging to disk is not fatal: for a known log
    format the result of [Before] is that of [debug.Setup], whatever
    [ConfigurePersistentLogging] returned; its error is logged, with the
    message of the source, exactly when a log file name is given and
    configuring it failed. *)
Theorem Before_logging_failure_not_fatal ctx ctx1 evs0 f :
  Slasher.loadFlagsFromFile names env ctx = (ctx1, evs0, None) ->
  let format := Slasher.Context.String ctx1 (Slasher.LogFormat names) in
  let logFileName := Slasher.Context.String ctx1 (Slasher.LogFileName names) in
  Slasher.formatterFor names ctx1 format = Some f ->
  (Slasher.Before names env ctx).2 = Slasher.DebugSetup env ctx1 /\
  (forall err message,
     Slasher.EvLogError err message ∈ (Slasher.Before names env ctx).1 <->
     logFileName <> ""%string /\
     Slasher.ConfigurePersistentLogging env logFileName = Some err /\
     message = "Failed to configuring logging to disk."%string).
Proof.
  intros Hload format logFileName Hfmt. subst format logFileName.
  pose proof (loadFlagsFromFile_events ctx ctx1 evs0 None Hload) as Hevs0.
  unfold Slasher.Before. rewrite Hload, Hfmt. simpl. split; [reflexivity|].
  intros err message.
  destruct (negb _) eqn:Hn;
    [apply negb_true_iff, String.eqb_neq in Hn
    |apply negb_false_iff, String.eqb_eq in Hn];
    [destruct (Slasher.ConfigurePersistentLogging env _) eqn:Hc|]; simpl.
  all: split; [intros Hin; in_app_cases Hevs0; simplify_eq; done|].
  all: intros (Hne & Hcfg & ->); simplify_eq; try done.
  in_app_here.
Qed.

(** X20. [startSlasher] configures the feature flags first and starts the
    node iff it returns [nil], which it does iff the verbosity parses as a
    level and the node can be created.  A verbosity that does not parse is
    returned as the error before any level is set or node created; a node
    that cannot be created is returned as the error after the level was set. *)
Theorem startSlasher_starts_iff ctx :
  let verbosity := Slasher.Context.String ctx (Slasher.VerbosityFlag names) in
  let run := Slasher.startSlasher names env ctx in
  head run.1 = Some Slasher.EvConfigureSlasher /\
  (Slasher.EvStart ∈ run.1 <-> run.2 = None) /\
  (run.2 = None <->
     exists level, Slasher.ParseLevel env verbosity = inr level /\
                   Slasher.NewSlasherNode env ctx = None) /\
  (forall err, Slasher.ParseLevel env verbosity = inl err ->
     run.2 = Some err /\
     (forall level, Slasher.EvSetLevel level ∉ run.1) /\
     (forall res, Slasher.EvNewSlasherNode res ∉ run.1)) /\
  (forall level, Slasher.EvSetLevel level ∈ run.1 ->
     Slasher.ParseLevel env verbosity = inr level) /\
  (forall level err,
     Slasher.ParseLevel env verbosity = inr level ->
     Slasher.NewSlasherNode env ctx = Some err ->
     run.2 = Some err /\ Slasher.EvSetLevel level ∈ run.1).
Proof.
  intros verbosity run. subst verbosity run. unfold Slasher.startSlasher.
  destruct (Slasher.ParseLevel env _) as [err|level] eqn:Hp;
    [|destruct (Slasher.NewSlasherNode env ctx) as [err|] eqn:Hn]; simpl.
  all: split; [reflexivity|].
  all: split; [split; [intros Hin; inv_elem'; done|intros Hr; simplify_eq;
                 repeat first [apply elem_of_cons; left; reflexivity|apply elem_of_cons; right]]|].
  all: split; [split; [intros Hr; simplify_eq; eauto|intros (l & Hl & Hn'); simplify_eq; done]|].
  all: split; [intros e' He; simplify_eq;
                 try (split; [reflexivity|]; split; intros * Hin; inv_elem')|].
  all: split; [intros l Hin; inv_elem'; simplify_eq; reflexivity|].
  all: intros l e' Hl He; simplify_eq.
  split; [reflexivity|].
  repeat first [apply elem_of_cons; left; reflexivity|apply elem_of_cons; right].
Qed.

End SlasherProperties.

(* ===================================================================== *)
(** ** The further properties on the small hosts *)

(** The small host's cache answers a lookup with what was last inserted. *)
Lemma toy_cache_get_after_put (C : Toy.tcache) (k : Checkpoint.t) (x : ptr) (C' : Toy.tcache) :
  cache_AddCheckpointState C k x = (C', None) -> cache_StateByCheckpoint C' k = Ok x.
Proof.
  simpl. intros Heq. injection Heq as <-. simpl.
  destruct (decide (k = k)); [reflexivity|contradiction].
Qed.

(** X1 on the database path for checkpoint [(2, R1)]: two copies are made
    and one is advanced, and address 0 still holds the state at slot 32. *)
Lemma getAttPreState_preserves_states_witness :
  heap (getAttPreState Toy.config Toy.legacy (Checkpoint.mk 2 Toy.R1) Toy.service).1.1
    !! 0%nat = Some (Toy.mkState 32 [xaa]).
Proof.
  apply (getAttPreState_preserves_states Toy.config Toy.legacy Toy.service
           (Checkpoint.mk 2 Toy.R1) 0%nat (Toy.mkState 32 [xaa])).
  reflexivity.
Defined.

(** X3 on the database path for checkpoint [(2, R1)]: the advanced state
    returned is at address 3, the cached copy at address 4. *)
Lemma getAttPreState_cached_copy_witness :
  exists a q w,
    Some 3%nat = Some a /\ Some 4%nat = Some q /\
    heap (getAttPreState Toy.config Toy.legacy (Checkpoint.mk 2 Toy.R1) Toy.service).1.1
      !! a = Some w /\
    heap (getAttPreState Toy.config Toy.legacy (Checkpoint.mk 2 Toy.R1) Toy.service).1.1
      !! q = Some w /\
    (q <> a /\ (length (heap Toy.service) <= q)%nat /\ heap Toy.service !! q = None).
Proof.
  apply (getAttPreState_cached_copy Toy.config Toy.legacy Toy.service
           (getAttPreState Toy.config Toy.legacy (Checkpoint.mk 2 Toy.R1) Toy.service).1.1
           (getAttPreState Toy.config Toy.legacy (Checkpoint.mk 2 Toy.R1) Toy.service).1.2
           (Checkpoint.mk 2 Toy.R1) (Some 3%nat) (Some 4%nat)).
  - reflexivity.
  - vm_compute. elem_here.
Defined.

(** X4 on a service whose buffer holds one block, for a root the state
    generator lacks: the block is saved, the buffer emptied, and only then
    does the state generator fail. *)
Example getAttPreState_flush_example :
  (getAttPreState Toy.config Toy.newStateMgmt (Checkpoint.mk 2 ToyMore.R3)
     ToyMore.syncingService).1.2 =
    [EvLock; EvStateByCheckpoint (Checkpoint.mk 2 ToyMore.R3) (Ok None);
     EvHasState (ToBytes32 ToyMore.R3) false;
     EvSaveBlocks [ToyMore.pending] None; EvClearInitSyncBlocks;
     EvStateByRoot (ToBytes32 ToyMore.R3) (Err (ErrOther 1)); EvUnlock] /\
  initSyncBlocks
    (getAttPreState Toy.config Toy.newStateMgmt (Checkpoint.mk 2 ToyMore.R3)
       ToyMore.syncingService).1.1 = [] /\
  (getAttPreState Toy.config Toy.newStateMgmt (Checkpoint.mk 2 ToyMore.R3)
     ToyMore.syncingService).2 =
    Err (Wrap (ErrOther 1) "could not get pre state for slot %d" [ArgUint 64]).
Proof. repeat split; vm_compute; reflexivity. Qed.

(** X6 with CheckHeadState, for checkpoint [(2, R2)] whose root is the
    head: the head root was read and the database was not. *)
Lemma getAttPreState_head_state_shortcut_witness :
  EvHeadRoot (Ok Toy.R2) ∈
    (getAttPreState Toy.config Toy.checkHeadState (Checkpoint.mk 2 Toy.R2) Toy.service).1.2 /\
  (getAttPreState Toy.config Toy.checkHeadState (Checkpoint.mk 2 Toy.R2) Toy.service).2 =
    Ok (Some 2%nat) /\
  heap (getAttPreState Toy.config Toy.checkHeadState (Checkpoint.mk 2 Toy.R2) Toy.service).1.1
    !! 2%nat = Some (Toy.mkState 40 [xbb]).
Proof.
  destruct (getAttPreState_head_state_shortcut Toy.config Toy.checkHeadState Toy.service
              (getAttPreState Toy.config Toy.checkHeadState (Checkpoint.mk 2 Toy.R2)
                 Toy.service).1.1
              (getAttPreState Toy.config Toy.checkHeadState (Checkpoint.mk 2 Toy.R2)
                 Toy.service).1.2
              (getAttPreState Toy.config Toy.checkHeadState (Checkpoint.mk 2 Toy.R2)
                 Toy.service).2
              (Checkpoint.mk 2 Toy.R2) (Ok (Some 2%nat)))
    as (Hroot & _ & _ & Hret).
  - reflexivity.
  - vm_compute. elem_here.
  - split; [exact Hroot|]. split; [reflexivity|].
    destruct (Hret (Some 2%nat) eq_refl) as (_ & h & v & Hh & Hv & Hv' & _).
    injection Hh as <-. rewrite Hv'. rewrite <- Hv. reflexivity.
Defined.

(** X7 on the database path, for a root the database has no state for. *)
Lemma getAttPreState_base_state_unavailable_witness :
  (getAttPreState Toy.config Toy.legacy (Checkpoint.mk 1 ToyMore.R3) Toy.service).2 =
    Err (Errorf "pre state of target block %d does not exist" [ArgUint 32]) /\
  cacheInsertions
    (getAttPreState Toy.config Toy.legacy (Checkpoint.mk 1 ToyMore.R3) Toy.service).1.2 = [].
Proof.
  destruct (getAttPreState_base_state_unavailable Toy.config Toy.legacy Toy.service
              (getAttPreState Toy.config Toy.legacy (Checkpoint.mk 1 ToyMore.R3)
                 Toy.service).1.1
              (getAttPreState Toy.config Toy.legacy (Checkpoint.mk 1 ToyMore.R3)
                 Toy.service).1.2
              (getAttPreState Toy.config Toy.legacy (Checkpoint.mk 1 ToyMore.R3)
                 Toy.service).2
              (Checkpoint.mk 1 ToyMore.R3))
    as (Hnil & _ & Hclean).
  - reflexivity.
  - assert (Hin : EvState (ToBytes32 ToyMore.R3) (Ok None) ∈
              (getAttPreState Toy.config Toy.legacy (Checkpoint.mk 1 ToyMore.R3)
                 Toy.service).1.2) by (vm_compute; elem_here).
    split; [exact (Hnil Hin)|]. exact (proj1 (Hclean (or_introl Hin))).
Defined.

(** X8 on checkpoint [(2, R1)]: the first call caches the advanced copy at
    address 3; the second call returns it from the cache. *)
Lemma getAttPreState_second_call_hits_witness :
  getAttPreState Toy.config Toy.newStateMgmt (Checkpoint.mk 2 Toy.R1)
    (getAttPreState Toy.config Toy.newStateMgmt (Checkpoint.mk 2 Toy.R1) Toy.service).1.1 =
  ((getAttPreState Toy.config Toy.newStateMgmt (Checkpoint.mk 2 Toy.R1) Toy.service).1.1,
   [EvLock; EvStateByCheckpoint (Checkpoint.mk 2 Toy.R1) (Ok (Some 3%nat)); EvUnlock],
   Ok (Some 3%nat)).
Proof.
  refine (proj1 (getAttPreState_second_call_hits Toy.config Toy.newStateMgmt Toy.service
           (getAttPreState Toy.config Toy.newStateMgmt (Checkpoint.mk 2 Toy.R1) Toy.service).1.1
           (getAttPreState Toy.config Toy.newStateMgmt (Checkpoint.mk 2 Toy.R1) Toy.service).1.2
           (Checkpoint.mk 2 Toy.R1) (Some 3%nat) (Some 3%nat)
           toy_cache_get_after_put _ _)).
  - reflexivity.
  - vm_compute. elem_here.
Defined.

(** X9 on an attestation whose signature verifies. *)
Lemma verifyAttestation_sound_witness :
  (verifyAttestation Toy.config Toy.newStateMgmt (Some 0%nat) (Toy.attestation [x01])
     Toy.service).1 = (Toy.service, []).
Proof.
  destruct (verifyAttestation_sound Toy.config Toy.newStateMgmt Toy.service
              (verifyAttestation Toy.config Toy.newStateMgmt (Some 0%nat)
                 (Toy.attestation [x01]) Toy.service).1.1
              (verifyAttestation Toy.config Toy.newStateMgmt (Some 0%nat)
                 (Toy.attestation [x01]) Toy.service).1.2
              (Some 0%nat) (Toy.attestation [x01])
              (IndexedAttestation.mk [5; 11] (Attestation.Data (Toy.attestation [x01])) [x01]))
    as (Hs & Hevs & _).
  - reflexivity.
  - reflexivity.
Defined.

(** X11 on the database path: the signature fails to verify and the
    database has no state for the attestation's head [R3]. *)
Lemma verifyAttestation_head_state_unavailable_witness :
  (verifyAttestation Toy.config Toy.legacy (Some 0%nat)
     (ToyMore.attestationFor ToyMore.R3 [x02]) Toy.service).2 =
    Err (Errorf "nil state for block root %#x" [ArgBytes ToyMore.R3]).
Proof.
  destruct (verifyAttestation_head_state_unavailable Toy.config Toy.legacy Toy.service
              (verifyAttestation Toy.config Toy.legacy (Some 0%nat)
                 (ToyMore.attestationFor ToyMore.R3 [x02]) Toy.service).1.1
              (verifyAttestation Toy.config Toy.legacy (Some 0%nat)
                 (ToyMore.attestationFor ToyMore.R3 [x02]) Toy.service).1.2
              (verifyAttestation Toy.config Toy.legacy (Some 0%nat)
                 (ToyMore.attestationFor ToyMore.R3 [x02]) Toy.service).2
              (Some 0%nat) (ToyMore.attestationFor ToyMore.R3 [x02]))
    as (Hnil & _).
  - reflexivity.
  - apply Hnil. right. vm_compute. elem_here.
Defined.

(** X14 on the spec's first scenario: genesis at 0, the clock at 768 s
    (epoch 2), target epoch 1, whose window is [384, 1152). *)
Lemma verifyAttTargetEpoch_window_witness :
  verifyAttTargetEpoch Toy.config 0 768 (Checkpoint.mk 1 Toy.R1) = None.
Proof.
  assert (Hcfg : config_ok Toy.config) by (unfold config_ok, U64.modulus; simpl; lia).
  assert (H0 : U64.in_range 0) by (unfold U64.in_range, U64.modulus; lia).
  assert (H1 : U64.in_range 768) by (unfold U64.in_range, U64.modulus; lia).
  assert (H2 : 0 <= 768) by lia.
  assert (H3 : 0 <= Checkpoint.Epoch (Checkpoint.mk 1 Toy.R1)) by (simpl; lia).
  apply (verifyAttTargetEpoch_window Toy.config 0 768 (Checkpoint.mk 1 Toy.R1)
           Hcfg H0 H1 H2 H3).
  simpl. lia.
Defined.

(** X15 on the same scenario: the start slot of epoch 1 is 32, before the
    current slot 64. *)
Lemma accepted_target_start_slot_witness :
  StartSlot Toy.config 1 = 1 * 32 /\
  StartSlot Toy.config 1 <= (768 - 0) / 12 /\
  SlotToEpoch Toy.config (StartSlot Toy.config 1) = 1.
Proof.
  assert (Hcfg : config_ok Toy.config) by (unfold config_ok, U64.modulus; simpl; lia).
  assert (H0 : U64.in_range 0) by (unfold U64.in_range, U64.modulus; lia).
  assert (H1 : U64.in_range 768) by (unfold U64.in_range, U64.modulus; lia).
  assert (H2 : 0 <= 768) by lia.
  assert (H3 : 0 <= Checkpoint.Epoch (Checkpoint.mk 1 Toy.R1)) by (simpl; lia).
  exact (accepted_target_start_slot Toy.config 0 768 (Checkpoint.mk 1 Toy.R1)
           Hcfg H0 H1 H2 H3 eq_refl).
Defined.

(** X16 on the command line [--log-format xml]. *)
Lemma Before_unknown_log_format_witness :
  Slasher.Before Slasher.toyNames Slasher.toyEnv
    (Slasher.toyContext [("log-format", "xml")]%string) =
  ([], Some (Slasher.Errorf "unknown log format %s" ["xml"%string])).
Proof.
  apply (Before_unknown_log_format Slasher.toyNames Slasher.toyEnv
           (Slasher.toyContext [("log-format", "xml")]%string)
           (Slasher.toyContext [("log-format", "xml")]%string) []).
  - reflexivity.
  - discriminate.
  - discriminate.
  - discriminate.
Defined.

(** X18 on [--log-format text --log-file /ro/log]: colours are off and the
    log file is configured. *)
Lemma Before_formatter_follows_flags_witness :
  ("text" = "text" /\
     exists colorsOff,
       Slasher.TextFormatter "2006-01-02 15:04:05" true true =
         Slasher.TextFormatter "2006-01-02 15:04:05" true colorsOff /\
       (colorsOff = true <-> "/ro/log" <> "") /\
       (colorsOff = true <->
          exists res, Slasher.EvConfigurePersistentLogging "/ro/log" res
                        ∈ (Slasher.Before Slasher.toyNames Slasher.toyEnv
                             (Slasher.toyContext
                                [("log-format", "text"); ("log-file", "/ro/log")])).1))%string \/
  ("text" = "fluentd" /\
     Slasher.TextFormatter "2006-01-02 15:04:05" true true = Slasher.FluentdFormatter)%string \/
  ("text" = "json" /\
     Slasher.TextFormatter "2006-01-02 15:04:05" true true = Slasher.JSONFormatter)%string.
Proof.
  apply (Before_formatter_follows_flags Slasher.toyNames Slasher.toyEnv
           (Slasher.toyContext [("log-format", "text"); ("log-file", "/ro/log")]%string)
           (Slasher.toyContext [("log-format", "text"); ("log-file", "/ro/log")]%string) []
           (Slasher.TextFormatter "2006-01-02 15:04:05" true true)).
  - reflexivity.
  - vm_compute.
    repeat first [ apply elem_of_cons; left; reflexivity | apply elem_of_cons; right ].
Defined.

(** X19 on the same command line, where logging to [/ro/log] fails: the
    failure is logged and [Before] still succeeds. *)
Lemma Before_logging_failure_not_fatal_witness :
  (Slasher.Before Slasher.toyNames Slasher.toyEnv
     (Slasher.toyContext [("log-format", "text"); ("log-file", "/ro/log")]%string)).2 = None /\
  Slasher.EvLogError (Slasher.ErrOther 2) "Failed to configuring logging to disk."
    ∈ (Slasher.Before Slasher.toyNames Slasher.toyEnv
         (Slasher.toyContext [("log-format", "text"); ("log-file", "/ro/log")]%string)).1.
Proof.
  destruct (Before_logging_failure_not_fatal Slasher.toyNames Slasher.toyEnv
              (Slasher.toyContext [("log-format", "text"); ("log-file", "/ro/log")]%string)
              (Slasher.toyContext [("log-format", "text"); ("log-file", "/ro/log")]%string) []
              (Slasher.TextFormatter "2006-01-02 15:04:05" true true))
    as (Hres & Hlog).
  - reflexivity.
  - reflexivity.
  - split; [exact Hres|].
    apply Hlog. split; [discriminate|]. split; reflexivity.
Defined.

(** X20 and X17 on the small environment: an unknown verbosity stops
    [startSlasher] before a level is set, and a configuration file that sets
    the format to [json] lets [Before] through. *)
Example slasher_examples :
  Slasher.startSlasher Slasher.toyNames Slasher.toyEnv
    (Slasher.toyContext [("verbosity", "loud")]%string) =
    ([Slasher.EvConfigureSlasher; Slasher.EvParseLevel "loud" (inl (Slasher.ErrOther 1))],
     Some (Slasher.ErrOther 1)) /\
  Slasher.startSlasher Slasher.toyNames Slasher.toyEnv
    (Slasher.toyContext [("verbosity", "debug")]%string) =
    ([Slasher.EvConfigureSlasher; Slasher.EvParseLevel "debug" (inr 5%nat);
      Slasher.EvSetLevel 5; Slasher.EvNewSlasherNode None; Slasher.EvStart], None) /\
  Slasher.Before Slasher.toyNames Slasher.toyEnv
    (Slasher.toyContext [("log-format", "xml"); ("config-file", "a.yaml")]%string) =
    ([Slasher.EvInitInputSource None; Slasher.EvSetFormatter Slasher.JSONFormatter;
      Slasher.EvGOMAXPROCS 8; Slasher.EvDebugSetup None], None).
Proof. repeat split; vm_compute; reflexivity. Qed.
